(** * Mental-health tracker: scoring, classification, persistence, time filter

    A shallow embedding of [backend.py] (scorers, classifiers, the two SQLite
    tables) and of the data path of [frontend.py] (the two submit handlers
    and the time filter of [update_graph]), with the properties of the
    specification stated and proved over it.

    Modelling conventions.
    - Python [int] is [Z]; a response is a Python value ([value]), because
      the scorers test [isinstance(x, int)] at run time.
    - A raised exception is the [Raise] case of [result].
    - The wall clock ([datetime.now()]) is an explicit argument [now].
    - The SQLite file is an explicit [database] value threaded through the
      operations.  The storage engine is the ideal durable store of the
      specification: I/O failures and the exhaustion of 64-bit row ids or
      integers are outside the model. *)

From Stdlib Require Import ZArith List String Ascii Bool Lia.
From Stdlib Require Import Sorted Permutation.
From Stdlib Require Import Numbers.DecimalString.
Import ListNotations.

Open Scope string_scope.
Open Scope Z_scope.

(* ================================================================== *)
(** ** Python values, exceptions *)
(* ================================================================== *)

Module Py.

(** The run-time values a response vector can hold.  [bool] is a subclass
    of [int] in Python: [isinstance(True, int)] holds and [True == 1].
    A float is kept as its 64-bit pattern; the scorers never inspect it. *)
Inductive value : Type :=
| VInt (z : Z)
| VBool (b : bool)
| VFloat (bits : Z)
| VStr (s : string)
| VNone.

Inductive exn : Type :=
| ValueError (msg : string)
| OverflowError (msg : string).

Inductive result (A : Type) : Type :=
| Ok (a : A)
| Raise (e : exn).
Arguments Ok {A} a.
Arguments Raise {A} e.

Definition bind {A B} (r : result A) (k : A -> result B) : result B :=
  match r with
  | Ok a => k a
  | Raise e => Raise e
  end.

(** [isinstance(x, int)] *)
Definition isinstance_int (x : value) : bool :=
  match x with
  | VInt _ | VBool _ => true
  | _ => false
  end.

(** The integer an [int] instance denotes in arithmetic and comparisons. *)
Definition int_of (x : value) : option Z :=
  match x with
  | VInt z => Some z
  | VBool b => Some (if b then 1 else 0)
  | _ => None
  end.

(** [lo <= x <= hi] for an [x] already known to be an [int] instance. *)
Definition between (lo : Z) (x : value) (hi : Z) : bool :=
  match int_of x with
  | Some z => (lo <=? z) && (z <=? hi)
  | None => false
  end.

(** [sum(responses)]: left-to-right addition starting from [0]. *)
Definition sum (responses : list value) : Z :=
  fold_left (fun acc x => match int_of x with
                          | Some z => acc + z
                          | None => acc
                          end) responses 0.

(** [str(n)] for an [int]. *)
Definition str (n : Z) : string := NilZero.string_of_int (Z.to_int n).

End Py.

Import Py.

Notation "x <- c1 ;; c2" := (Py.bind c1 (fun x => c2))
  (at level 61, c1 at next level, right associativity).

(* ================================================================== *)
(** ** backend.py: scorers and classifiers *)
(* ================================================================== *)

(** [calculate_burns_score], backend.py lines 4-15. *)
Definition calculate_burns_score (responses : list value) : result Z :=
  if negb (Nat.eqb (List.length responses) 25) then
    Raise (ValueError "Must provide exactly 25 responses")
  else if negb (forallb (fun x => isinstance_int x && between 0 x 4) responses) then
    Raise (ValueError "All responses must be integers between 0 and 4")
  else
    Ok (Py.sum responses).

(** [get_depression_level], backend.py lines 17-34. *)
Definition get_depression_level (score : Z) : string :=
  if (0 <=? score) && (score <=? 5) then "No Depression"
  else if (6 <=? score) && (score <=? 10) then "Normal but unhappy"
  else if (11 <=? score) && (score <=? 25) then "Mild depression"
  else if (26 <=? score) && (score <=? 50) then "Moderate depression"
  else if (51 <=? score) && (score <=? 75) then "Severe depression"
  else if (76 <=? score) && (score <=? 100) then "Extreme depression"
  else "Invalid score".

(** [calculate_gad7_score], backend.py lines 36-47. *)
Definition calculate_gad7_score (responses : list value) : result Z :=
  if negb (Nat.eqb (List.length responses) 7) then
    Raise (ValueError "Must provide exactly 7 responses")
  else if negb (forallb (fun x => isinstance_int x && between 0 x 3) responses) then
    Raise (ValueError "All responses must be integers between 0 and 3")
  else
    Ok (Py.sum responses).

(** [get_anxiety_level], backend.py lines 49-62. *)
Definition get_anxiety_level (score : Z) : string :=
  if (0 <=? score) && (score <=? 4) then "Minimal anxiety"
  else if (5 <=? score) && (score <=? 9) then "Mild anxiety"
  else if (10 <=? score) && (score <=? 14) then "Moderate anxiety"
  else if (15 <=? score) && (score <=? 21) then "Severe anxiety"
  else "Invalid score".

(** The sample vectors of the demonstration path, backend.py lines 159-160
    and 180. *)
Definition sample_burns_responses : list value :=
  map VInt [2; 1; 0; 2; 1; 3; 2; 1; 0; 2; 1; 0; 2; 1; 3;
            2; 1; 0; 2; 1; 0; 2; 1; 0; 0].

Definition sample_gad7_responses : list value :=
  map VInt [1; 2; 3; 2; 1; 0; 1].

(* ------------------------------------------------------------------ *)
(** *** The specification's band tables *)

(** An inclusive band [(low, high, label)]. *)
Definition band : Type := (Z * Z * string)%type.

Definition band_contains (b : band) (score : Z) : Prop :=
  let '(lo, hi, _) := b in lo <= score <= hi.

Definition band_label (b : band) : string := snd b.

Definition depression_bands : list band :=
  [ (0, 5, "No Depression");
    (6, 10, "Normal but unhappy");
    (11, 25, "Mild depression");
    (26, 50, "Moderate depression");
    (51, 75, "Severe depression");
    (76, 100, "Extreme depression") ].

Definition anxiety_bands : list band :=
  [ (0, 4, "Minimal anxiety");
    (5, 9, "Mild anxiety");
    (10, 14, "Moderate anxiety");
    (15, 21, "Severe anxiety") ].

(** The arithmetic sum of a vector of integers. *)
Definition total (responses : list Z) : Z := fold_right Z.add 0 responses.

(** "[x] is an integer within [[lo, hi]]", as the specification words the
    per-item condition. *)
Definition integer_within (lo hi : Z) (x : value) : Prop :=
  exists z, int_of x = Some z /\ lo <= z <= hi.

(* ================================================================== *)
(** ** The [datetime] library, as far as the program uses it *)
(* ================================================================== *)

(** A naive [datetime.datetime]. *)
Record datetime : Type := mkdatetime {
  year : Z; month : Z; day : Z;
  hour : Z; minute : Z; second : Z;
  microsecond : Z
}.

Definition MINYEAR : Z := 1.
Definition MAXYEAR : Z := 9999.
Definition MAXORDINAL : Z := 3652059.

Definition is_leap (y : Z) : bool :=
  (y mod 4 =? 0) && (negb (y mod 100 =? 0) || (y mod 400 =? 0)).

Definition days_in_month (y m : Z) : Z :=
  if m =? 2 then (if is_leap y then 29 else 28)
  else if (m =? 4) || (m =? 6) || (m =? 9) || (m =? 11) then 30
  else 31.

(** The range checks of the [datetime] constructor. *)
Definition valid_datetime (d : datetime) : bool :=
  (MINYEAR <=? year d) && (year d <=? MAXYEAR) &&
  (1 <=? month d) && (month d <=? 12) &&
  (1 <=? day d) && (day d <=? days_in_month (year d) (month d)) &&
  (0 <=? hour d) && (hour d <=? 23) &&
  (0 <=? minute d) && (minute d <=? 59) &&
  (0 <=? second d) && (second d <=? 59) &&
  (0 <=? microsecond d) && (microsecond d <=? 999999).

(** [datetime.min] *)
Definition datetime_min : datetime := mkdatetime 1 1 1 0 0 0 0.

(** Comparison of naive datetimes is the lexicographic comparison of their
    fields, most significant first. *)
Fixpoint lex_compare (k1 k2 : list Z) : comparison :=
  match k1, k2 with
  | [], [] => Eq
  | [], _ :: _ => Lt
  | _ :: _, [] => Gt
  | a :: k1', b :: k2' =>
      match a ?= b with
      | Eq => lex_compare k1' k2'
      | c => c
      end
  end.

Definition fields (d : datetime) : list Z :=
  [year d; month d; day d; hour d; minute d; second d; microsecond d].

Definition dt_compare (d1 d2 : datetime) : comparison :=
  lex_compare (fields d1) (fields d2).

(** [d1 <= d2] and [d1 >= d2] *)
Definition dt_le (d1 d2 : datetime) : bool :=
  match dt_compare d1 d2 with Gt => false | _ => true end.
Definition dt_ge (d1 d2 : datetime) : bool := dt_le d2 d1.
(** [d1 < d2] *)
Definition dt_lt (d1 d2 : datetime) : bool :=
  match dt_compare d1 d2 with Lt => true | _ => false end.

(** Proleptic Gregorian ordinals ([_ymd2ord], [_ord2ymd]). *)
Definition days_before_year (y : Z) : Z :=
  let y1 := y - 1 in y1 * 365 + y1 / 4 - y1 / 100 + y1 / 400.

Definition DAYS_BEFORE_MONTH (m : Z) : Z :=
  nth (Z.to_nat m) [0; 0; 31; 59; 90; 120; 151; 181; 212; 243; 273; 304; 334] 0.

Definition DAYS_IN_MONTH (m : Z) : Z :=
  nth (Z.to_nat m) [0; 31; 28; 31; 30; 31; 30; 31; 31; 30; 31; 30; 31] 0.

Definition b2z (b : bool) : Z := if b then 1 else 0.

Definition days_before_month (y m : Z) : Z :=
  DAYS_BEFORE_MONTH m + b2z ((2 <? m) && is_leap y).

Definition ymd2ord (y m d : Z) : Z :=
  days_before_year y + days_before_month y m + d.

Definition ord2ymd (n0 : Z) : Z * Z * Z :=
  let n := n0 - 1 in
  let n400 := n / 146097 in
  let n := n mod 146097 in
  let y := n400 * 400 + 1 in
  let n100 := n / 36524 in
  let n := n mod 36524 in
  let n4 := n / 1461 in
  let n := n mod 1461 in
  let n1 := n / 365 in
  let n := n mod 365 in
  let y := y + n100 * 100 + n4 * 4 + n1 in
  if (n1 =? 4) || (n100 =? 4) then (y - 1, 12, 31)
  else
    let leapyear := (n1 =? 3) && (negb (n4 =? 24) || (n100 =? 3)) in
    let m := Z.shiftr (n + 50) 5 in
    let preceding := DAYS_BEFORE_MONTH m + b2z ((2 <? m) && leapyear) in
    if n <? preceding then
      let m := m - 1 in
      let preceding :=
        preceding - (DAYS_IN_MONTH m + b2z ((m =? 2) && leapyear)) in
      (y, m, n - preceding + 1)
    else (y, m, n - preceding + 1).

(** [d - timedelta(days=k)]: the date moves by whole days, the time of day
    is kept; a result before year 1 or after year 9999 raises. *)
Definition sub_days (d : datetime) (k : Z) : result datetime :=
  let o := ymd2ord (year d) (month d) (day d) - k in
  if (0 <? o) && (o <=? MAXORDINAL) then
    let '(y, m, dd) := ord2ymd o in
    Ok (mkdatetime y m dd (hour d) (minute d) (second d) (microsecond d))
  else Raise (OverflowError "date value out of range").

(* ------------------------------------------------------------------ *)
(** *** The format ['%Y-%m-%d %H:%M:%S'] *)

Definition digit_char (d : Z) : ascii := ascii_of_N (48 + Z.to_N d).

Definition digit_of (c : ascii) : option Z :=
  let n := Z.of_N (N_of_ascii c) in
  if (48 <=? n) && (n <=? 57) then Some (n - 48) else None.

(** [z] as [n] decimal digits, zero-filled. *)
Fixpoint pad (n : nat) (z : Z) : string :=
  match n with
  | O => EmptyString
  | S n' =>
      String (digit_char ((z / 10 ^ Z.of_nat n') mod 10))
             (pad n' (z mod 10 ^ Z.of_nat n'))
  end.

(** [d.strftime('%Y-%m-%d %H:%M:%S')], with the zero-filled field widths the
    library documents for these directives (4, 2, 2, 2, 2, 2). *)
Definition strftime (d : datetime) : string :=
  pad 4 (year d) ++ "-" ++ pad 2 (month d) ++ "-" ++ pad 2 (day d) ++ " " ++
  pad 2 (hour d) ++ ":" ++ pad 2 (minute d) ++ ":" ++ pad 2 (second d).

Fixpoint read_digits (n : nat) (acc : Z) (s : string) : option (Z * string) :=
  match n with
  | O => Some (acc, s)
  | S n' =>
      match s with
      | EmptyString => None
      | String c s' =>
          match digit_of c with
          | Some d => read_digits n' (acc * 10 + d) s'
          | None => None
          end
      end
  end.

Definition expect (c : ascii) (s : string) : option string :=
  match s with
  | String c' s' => if Ascii.eqb c c' then Some s' else None
  | EmptyString => None
  end.

Definition obind {A B} (o : option A) (k : A -> option B) : option B :=
  match o with Some a => k a | None => None end.

(** The six fields of a string laid out as [YYYY-MM-DD HH:MM:SS], nothing
    before or after. *)
Definition read_fields (s : string) : option datetime :=
  obind (read_digits 4 0 s) (fun '(y, s) =>
  obind (expect "-" s) (fun s =>
  obind (read_digits 2 0 s) (fun '(mo, s) =>
  obind (expect "-" s) (fun s =>
  obind (read_digits 2 0 s) (fun '(d, s) =>
  obind (expect " " s) (fun s =>
  obind (read_digits 2 0 s) (fun '(h, s) =>
  obind (expect ":" s) (fun s =>
  obind (read_digits 2 0 s) (fun '(mi, s) =>
  obind (expect ":" s) (fun s =>
  obind (read_digits 2 0 s) (fun '(se, s) =>
  match s with
  | EmptyString => Some (mkdatetime y mo d h mi se 0)
  | _ => None
  end))))))))))).

(** [datetime.strptime(s, '%Y-%m-%d %H:%M:%S')] on the zero-filled layout
    that [strftime] writes.  The library also reads some unpadded spellings
    of the fields; no operation of this program writes them, and the model
    rejects them, so every statement below that assumes a successful parse
    assumes no more than the library grants. *)
Definition strptime (s : string) : result datetime :=
  match read_fields s with
  | Some d =>
      if valid_datetime d then Ok d
      else Raise (ValueError "time data out of range")
  | None => Raise (ValueError "time data does not match format")
  end.

(* ================================================================== *)
(** ** backend.py: the two tables *)
(* ================================================================== *)

(** A row [(id, score, level, timestamp)] of either table, as [SELECT *]
    returns it: [entry[0]] .. [entry[3]]. *)
Record entry : Type := mkentry {
  entry_id : Z;
  entry_score : Z;
  entry_level : string;
  entry_timestamp : string
}.

(** A table with an [INTEGER PRIMARY KEY AUTOINCREMENT] column: its rows in
    insertion order, and the largest row id handed out so far (the table's
    line in [sqlite_sequence]). *)
Record table : Type := mktable {
  rows : list entry;
  sequence : Z
}.

Record database : Type := mkdatabase {
  checklist_entries : table;
  gad7_entries : table
}.

Definition empty_table : table := mktable [] 0.

(** [init_db], backend.py lines 64-85: [CREATE TABLE IF NOT EXISTS] on a
    file that is absent ([None]) or already holds the tables. *)
Definition init_db (file : option database) : database :=
  match file with
  | None => mkdatabase empty_table empty_table
  | Some db => db
  end.

Definition max_rowid (rs : list entry) : Z :=
  fold_right (fun e m => Z.max (entry_id e) m) 0 rs.

(** The row id [AUTOINCREMENT] selects: one more than the largest id the
    table has ever held. *)
Definition next_rowid (t : table) : Z :=
  Z.max (sequence t) (max_rowid (rows t)) + 1.

(** [INSERT INTO t (score, level, timestamp) VALUES (?, ?, ?)], with
    [lastrowid]. *)
Definition insert (t : table) (score : Z) (level ts : string) : Z * table :=
  let id := next_rowid t in
  (id, mktable (rows t ++ [mkentry id score level ts]) id).

(** [save_score], backend.py lines 87-107. *)
Definition save_score (score : Z) (now : datetime) (db : database)
  : Z * database :=
  let depression_level := get_depression_level score in
  let current_time := strftime now in
  let '(entry_id, t) :=
    insert (checklist_entries db) score depression_level current_time in
  (entry_id, mkdatabase t (gad7_entries db)).

(** [save_gad7_score], backend.py lines 120-140. *)
Definition save_gad7_score (score : Z) (now : datetime) (db : database)
  : Z * database :=
  let anxiety_level := get_anxiety_level score in
  let current_time := strftime now in
  let '(entry_id, t) :=
    insert (gad7_entries db) score anxiety_level current_time in
  (entry_id, mkdatabase (checklist_entries db) t).

(** [ORDER BY timestamp DESC].  The column holds text, compared byte by
    byte.  SQL leaves the order of rows with equal timestamps to the engine;
    here they stay in insertion order. *)
Fixpoint place (e : entry) (sorted : list entry) : list entry :=
  match sorted with
  | [] => [e]
  | x :: rest =>
      if String.ltb (entry_timestamp x) (entry_timestamp e)
      then e :: sorted
      else x :: place e rest
  end.

Definition order_by_timestamp_desc (rs : list entry) : list entry :=
  fold_left (fun acc e => place e acc) rs [].

(** [get_all_entries], backend.py lines 109-118. *)
Definition get_all_entries (db : database) : list entry :=
  order_by_timestamp_desc (rows (checklist_entries db)).

(** [get_all_gad7_entries], backend.py lines 142-151. *)
Definition get_all_gad7_entries (db : database) : list entry :=
  order_by_timestamp_desc (rows (gad7_entries db)).

(** The states the program can bring the store to: the tables as [init_db]
    creates them, then any sequence of saves, each at some reading of the
    clock. *)
Inductive reachable : database -> Prop :=
| reach_init : reachable (init_db None)
| reach_save_score (score : Z) (now : datetime) (db : database) :
    reachable db -> valid_datetime now = true ->
    reachable (snd (save_score score now db))
| reach_save_gad7_score (score : Z) (now : datetime) (db : database) :
    reachable db -> valid_datetime now = true ->
    reachable (snd (save_gad7_score score now db)).

(* ================================================================== *)
(** ** frontend.py: submit handlers and the time filter *)
(* ================================================================== *)

Definition newline : string := String (ascii_of_N 10) EmptyString.

(** [calculate_burns_result], frontend.py lines 193-199.  [spins] are the
    values of the spin boxes of [self.burns_responses]; the result is the
    store afterwards and the text of the result label, or the exception
    that left the handler. *)
Definition calculate_burns_result
  (spins : list Z) (now : datetime) (db : database)
  : database * result string :=
  let scores := map VInt spins in
  match calculate_burns_score scores with
  | Raise e => (db, Raise e)
  | Ok total_score =>
      let '(_, db') := save_score total_score now db in
      (db', Ok ("Your total score is: " ++ str total_score ++ newline ++
                "Depression Level: " ++ get_depression_level total_score))
  end.

(** [calculate_gad7_result], frontend.py lines 201-207. *)
Definition calculate_gad7_result
  (spins : list Z) (now : datetime) (db : database)
  : database * result string :=
  let scores := map VInt spins in
  match calculate_gad7_score scores with
  | Raise e => (db, Raise e)
  | Ok total_score =>
      let '(_, db') := save_gad7_score total_score now db in
      (db', Ok ("Your total score is: " ++ str total_score ++ newline ++
                "Anxiety Level: " ++ get_anxiety_level total_score))
  end.

(** [needle in hay] on strings. *)
Fixpoint contains (needle hay : string) : bool :=
  String.prefix needle hay ||
  match hay with
  | EmptyString => false
  | String _ hay' => contains needle hay'
  end.

(** The time window of [update_graph], frontend.py lines 227-240, as the
    pair [(start_date, now)] the filter then uses. *)
Definition window (filter_type : string) (now date_from date_to : datetime)
  : result (datetime * datetime) :=
  if String.eqb filter_type "Last Week" then
    start_date <- sub_days now 7 ;; Ok (start_date, now)
  else if String.eqb filter_type "Last Month" then
    start_date <- sub_days now 30 ;; Ok (start_date, now)
  else if String.eqb filter_type "Last Year" then
    start_date <- sub_days now 365 ;; Ok (start_date, now)
  else if String.eqb filter_type "Custom" then
    Ok (date_from, date_to)
  else (* All Time *)
    Ok (datetime_min, now).

(** The comprehension [filtered_entries], frontend.py lines 242-245: the
    timestamp is parsed anew at each of its three occurrences, the [and]
    short-circuits, and a parse failure leaves the comprehension. *)
Fixpoint filtered_entries (start_date now : datetime) (entries : list entry)
  : result (list (Z * datetime)) :=
  match entries with
  | [] => Ok []
  | entry :: entries' =>
      t1 <- strptime (entry_timestamp entry) ;;
      keep <- (if dt_ge t1 start_date then
                 t2 <- strptime (entry_timestamp entry) ;; Ok (dt_le t2 now)
               else Ok false) ;;
      if keep : bool then
        t3 <- strptime (entry_timestamp entry) ;;
        tail <- filtered_entries start_date now entries' ;;
        Ok ((entry_score entry, t3) :: tail)
      else filtered_entries start_date now entries'
  end.

(** [update_graph], frontend.py lines 209-256: the entries of the selected
    instrument, the window, the filter; the result is the sequence of
    [(score, date)] pairs handed to the plot. *)
Definition update_graph
  (graph_type filter_type : string) (now date_from date_to : datetime)
  (db : database) : result (list (Z * datetime)) :=
  let entries :=
    if contains "Depression" graph_type then get_all_entries db
    else get_all_gad7_entries db in
  w <- window filter_type now date_from date_to ;;
  filtered_entries (fst w) (snd w) entries.

(* ================================================================== *)
(** ** Vocabulary of the properties *)
(* ================================================================== *)

(** [d] without its microseconds: what the format keeps of [d]. *)
Definition to_second (d : datetime) : datetime :=
  mkdatetime (year d) (month d) (day d) (hour d) (minute d) (second d) 0.

(** The timestamp column of [e] holds the rendering of a valid datetime. *)
Definition well_stamped (e : entry) : Prop :=
  exists d, valid_datetime d = true /\ entry_timestamp e = strftime d.

Definition timestamps_well_formed (db : database) : Prop :=
  Forall well_stamped (rows (checklist_entries db)) /\
  Forall well_stamped (rows (gad7_entries db)).

(** The label column of every row is the classifier's label of its score. *)
Definition labels_consistent (db : database) : Prop :=
  Forall (fun e => entry_level e = get_depression_level (entry_score e))
         (rows (checklist_entries db)) /\
  Forall (fun e => entry_level e = get_anxiety_level (entry_score e))
         (rows (gad7_entries db)).

(** [d] is the date the timestamp of [e] parses to. *)
Definition parses_to (e : entry) (d : datetime) : Prop :=
  strptime (entry_timestamp e) = Ok d.

(** An entry paired with its parsed date lies in the window
    [start <= t <= end]. *)
Definition in_window (start_date end_date : datetime)
  (p : entry * datetime) : bool :=
  dt_le start_date (snd p) && dt_le (snd p) end_date.

(** The pair handed to the plot for an entry and its parsed date. *)
Definition plot_point (p : entry * datetime) : Z * datetime :=
  (entry_score (fst p), snd p).

(** [e1] is listed before [e2] only if it is not older, by the text of the
    timestamps and by the dates they denote. *)
Definition not_older_text (e1 e2 : entry) : Prop :=
  String.ltb (entry_timestamp e1) (entry_timestamp e2) = false.

Definition not_older (e1 e2 : entry) : Prop :=
  exists d1 d2, parses_to e1 d1 /\ parses_to e2 d2 /\ dt_le d2 d1 = true.

(** The listing [update_graph] reads for the instrument selected in the
    combo box (frontend.py lines 212-220). *)
Definition selected_entries (graph_type : string) (db : database)
  : list entry :=
  if contains "Depression" graph_type then get_all_entries db
  else get_all_gad7_entries db.

(* ================================================================== *)
(** ** frontend.py: the questionnaire forms *)
(* ================================================================== *)

(** A [QSpinBox], as far as the forms use it: its range and its value.  The
    widget keeps its value inside its range; every way of changing the value
    (typing, stepping, [setValue]) goes through that bound. *)
Record QSpinBox : Type := mkspin {
  minimum : Z;
  maximum : Z;
  value_of : Z
}.

(** [QSpinBox()]: range 0..99, value 0. *)
Definition new_spinbox : QSpinBox := mkspin 0 99 0.

Definition bound (lo hi v : Z) : Z := Z.max lo (Z.min hi v).

(** [spinbox.setRange(lo, hi)] *)
Definition setRange (lo hi : Z) (sb : QSpinBox) : QSpinBox :=
  let hi' := Z.max lo hi in
  mkspin lo hi' (bound lo hi' (value_of sb)).

(** [spinbox.setValue(v)], and what typing or stepping to [v] does. *)
Definition setValue (v : Z) (sb : QSpinBox) : QSpinBox :=
  mkspin (minimum sb) (maximum sb) (bound (minimum sb) (maximum sb) v).

(** The question texts of [create_burns_questionnaire], frontend.py lines
    63-72. *)
Definition burns_questions : list string :=
  [ "1. Feeling sad or down in the dumps"; "2. Feeling unhappy or blue";
    "3. Crying spells or tearfulness";
    "4.Feeling discouraged"; "5.Feeling hopeless"; "6.Low self-esteem";
    "7.Feeling worthless or inadequate";
    "8.Guilt or shame"; "9.Criticizing yourself or others";
    "10.Difficulty making decisions";
    "11.Loss of interest in family, friends or colleagues"; "12.Loneliness";
    "13.Spending less time with family or friends";
    "14.Loss of motivation";
    "15.Loss of interest in work or other activities";
    "16.Avoiding work or other activities";
    "17.Loss of pleasure or satisfaction in life"; "18.Feeling tired";
    "19.Difficulty sleeping or sleeping too much";
    "20.Decreased or increased appetite"; "21.Loss of interest in sex";
    "22.Worrying about your health";
    "23.Do you have any suicidal thoughts?";
    "24. Would you like to end your life?";
    "25. Do you have a plan for harming yourself?" ].

(** The question texts of [create_gad7_questionnaire], frontend.py lines
    111-119. *)
Definition gad7_questions : list string :=
  [ "1. Feeling nervous, anxious, or on edge";
    "2. Not being able to stop or control worrying";
    "3. Worrying too much about different things";
    "4. Trouble relaxing";
    "5. Being so restless that it is hard to sit still";
    "6. Becoming easily annoyed or irritable";
    "7. Feeling afraid, as if something awful might happen" ].

(** [create_burns_questionnaire], frontend.py lines 53-99, as the list
    [self.burns_responses] it builds: one spin box per question, each with
    [setRange(0, 4)]. *)
Definition create_burns_questionnaire : list QSpinBox :=
  map (fun _ => setRange 0 4 new_spinbox) burns_questions.

(** [create_gad7_questionnaire], frontend.py lines 101-146, as the list
    [self.gad7_responses]: one spin box per question, each with
    [setRange(0, 3)]. *)
Definition create_gad7_questionnaire : list QSpinBox :=
  map (fun _ => setRange 0 3 new_spinbox) gad7_questions.

(** The user changes the answer in box [i] to [v]; a position the form does
    not have changes nothing. *)
Fixpoint answer (i : nat) (v : Z) (boxes : list QSpinBox) : list QSpinBox :=
  match boxes, i with
  | [], _ => []
  | sb :: rest, O => setValue v sb :: rest
  | sb :: rest, S i' => sb :: answer i' v rest
  end.

(** A form after a sequence of answers [(position, value)]. *)
Definition fill (boxes : list QSpinBox) (answers : list (nat * Z))
  : list QSpinBox :=
  fold_left (fun bs a => answer (fst a) (snd a) bs) answers boxes.

(** [[spin.value() for spin in boxes]] *)
Definition values (boxes : list QSpinBox) : list Z := map value_of boxes.

(** The stores the application brings about: the tables as [init_db]
    creates them, then any number of submissions of either form, each
    filled in at will and submitted at some reading of the clock. *)
Inductive gui_reachable : database -> Prop :=
| gui_init : gui_reachable (init_db None)
| gui_submit_burns (answers : list (nat * Z)) (now : datetime) (db : database) :
    gui_reachable db -> valid_datetime now = true ->
    gui_reachable
      (fst (calculate_burns_result
              (values (fill create_burns_questionnaire answers)) now db))
| gui_submit_gad7 (answers : list (nat * Z)) (now : datetime) (db : database) :
    gui_reachable db -> valid_datetime now = true ->
    gui_reachable
      (fst (calculate_gad7_result
              (values (fill create_gad7_questionnaire answers)) now db)).

(** The range of the score axis [update_graph] sets for the selected
    instrument, frontend.py lines 212-225 ([setYRange]). *)
Definition y_range (graph_type : string) : Z * Z :=
  if contains "Depression" graph_type then (0, 100) else (0, 21).

(** Every box of a form holds a value in [[0, hi]]. *)
Definition boxes_within (hi : Z) (boxes : list QSpinBox) : Prop :=
  Forall (fun sb => minimum sb = 0 /\ maximum sb = hi /\
                    0 <= value_of sb <= hi) boxes.

(** Every stored score lies in its instrument's range and no stored label
    is the sentinel. *)
Definition scores_in_range (db : database) : Prop :=
  Forall (fun e => 0 <= entry_score e <= 100 /\
                   entry_level e <> "Invalid score")
         (rows (checklist_entries db)) /\
  Forall (fun e => 0 <= entry_score e <= 21 /\
                   entry_level e <> "Invalid score")
         (rows (gad7_entries db)).

(** The identifiers of a table are 1, 2, ..., in the order of insertion, and
    the table's counter stands at the last of them. *)
Definition ids_consecutive (t : table) : Prop :=
  sequence t = Z.of_nat (List.length (rows t)) /\
  map entry_id (rows t) = map Z.of_nat (seq 1 (List.length (rows t))).


(* ================================================================== *)
(** ** frontend.py: the two views *)
(* ================================================================== *)

(** What [toggle_view] reads and writes: the visibility of the
    questionnaire stack, of the questionnaire selector and of the graph
    widget, and the text of the toggle button.  The window itself is shown,
    as it is whenever the button can be clicked. *)
Record view : Type := mkview {
  questionnaire_stack_visible : bool;
  questionnaire_select_visible : bool;
  graph_widget_visible : bool;
  toggle_button_text : string
}.

(** The view [__init__] leaves, frontend.py lines 23-48: the questionnaire
    shown, the graph hidden. *)
Definition initial_view : view :=
  mkview true true false "Switch to Graph View".

(** [toggle_view], frontend.py lines 258-269.  [plot] stands for the call
    [self.update_graph()] with the current selections; the result is the new
    view and, when the graph has been switched to, what that call gave. *)
Definition toggle_view {A} (plot : result A) (v : view)
  : view * option (result A) :=
  if questionnaire_stack_visible v then
    (mkview false false true "Switch to Questionnaire", Some plot)
  else
    (mkview true true false "Switch to Graph View", None).

(** The views the toggle button can bring about. *)
Inductive view_reachable : view -> Prop :=
| view_init : view_reachable initial_view
| view_toggle {A} (plot : result A) (v : view) :
    view_reachable v -> view_reachable (fst (toggle_view plot v)).

(* ================================================================== *)
(** * Properties *)
(* ================================================================== *)

(** ** Scorer *)

Lemma sum_from (responses : list Z) (acc : Z) :
  fold_left (fun a x => match int_of x with
                        | Some z => a + z
                        | None => a
                        end) (map VInt responses) acc
  = acc + total responses.
Proof.
  revert acc; induction responses as [|z rs IH]; intros acc; simpl.
  - lia.
  - rewrite IH. unfold total. lia.
Qed.

Lemma sum_ints (responses : list Z) :
  Py.sum (map VInt responses) = total responses.
Proof. unfold Py.sum. rewrite sum_from. lia. Qed.

Lemma total_bounds (hi : Z) (responses : list Z) :
  Forall (fun z => 0 <= z <= hi) responses ->
  0 <= total responses <= hi * Z.of_nat (List.length responses).
Proof.
  induction 1 as [|z rs Hz _ IH]; simpl List.length.
  - simpl. lia.
  - unfold total in *. simpl fold_right. lia.
Qed.

Lemma items_accepted (hi : Z) (responses : list Z) :
  Forall (fun z => 0 <= z <= hi) responses ->
  forallb (fun x => isinstance_int x && between 0 x hi) (map VInt responses)
  = true.
Proof.
  induction 1 as [|z rs Hz _ IH]; simpl; [reflexivity|].
  rewrite IH. unfold between; simpl.
  destruct (Z.leb_spec 0 z), (Z.leb_spec z hi); simpl; try lia; reflexivity.
Qed.

(** The per-item test of the scorers decides [integer_within]. *)
Lemma item_test_spec (hi : Z) (x : value) :
  isinstance_int x && between 0 x hi = true <-> integer_within 0 hi x.
Proof.
  unfold integer_within, between. split.
  - intros H. apply andb_true_iff in H as [_ H].
    destruct (int_of x) as [z|]; [|discriminate].
    exists z. split; [reflexivity|].
    apply andb_true_iff in H as [H1 H2].
    apply Z.leb_le in H1, H2. lia.
  - intros (z & Hz & Hr).
    destruct x; simpl in *; try discriminate; injection Hz as <-;
      apply andb_true_iff; split; apply Z.leb_le; lia.
Qed.

Lemma forallb_false_Exists {A} (f : A -> bool) (l : list A) :
  forallb f l = false <-> Exists (fun x => f x <> true) l.
Proof.
  induction l as [|a l IH]; simpl.
  - split; [discriminate | intros H; inversion H].
  - rewrite andb_false_iff, Exists_cons, IH.
    destruct (f a); intuition congruence.
Qed.

(** When a scorer raises, and what it raises. *)
Lemma scorer_raises (n : nat) (hi : Z) (m1 m2 : string) (responses : list value) :
  let score :=
    if negb (Nat.eqb (List.length responses) n) then Raise (ValueError m1)
    else if negb (forallb (fun x => isinstance_int x && between 0 x hi) responses)
         then Raise (ValueError m2)
         else Ok (Py.sum responses) in
  ((exists msg, score = Raise (ValueError msg)) <->
   (List.length responses <> n \/
    Exists (fun x => ~ integer_within 0 hi x) responses))
  /\ (forall e, score = Raise e -> exists msg, e = ValueError msg)
  /\ (forall s, score = Ok s -> s = Py.sum responses).
Proof.
  cbv zeta.
  destruct (Nat.eqb_spec (List.length responses) n) as [Hlen|Hlen]; simpl.
  - destruct (forallb _ responses) eqn:Hall; simpl.
    + split; [|split].
      * split; [intros (msg & H); discriminate|].
        intros [H|H]; [contradiction|].
        exfalso. rewrite forallb_forall in Hall.
        apply Exists_exists in H as (x & Hin & Hx).
        apply Hx, item_test_spec, Hall, Hin.
      * intros e H; discriminate.
      * intros s H; congruence.
    + split; [|split].
      * split; [|intros _; eexists; reflexivity].
        intros _. right.
        apply forallb_false_Exists in Hall.
        eapply Exists_impl; [|exact Hall]. cbv beta.
        intros x Hx Hw. apply Hx, item_test_spec, Hw.
      * intros e H. injection H as <-. eexists; reflexivity.
      * intros s H; discriminate.
  - split; [|split].
    + split; [intros _; left; exact Hlen | intros _; eexists; reflexivity].
    + intros e H. injection H as <-. eexists; reflexivity.
    + intros s H; discriminate.
Qed.

(** C1. For every response vector of exactly 25 integers, each in [0,4],
    [calculate_burns_score] returns the exact arithmetic sum of the
    elements, and that sum lies in [0,100]; for every vector of exactly 7
    integers, each in [0,3], [calculate_gad7_score] returns the exact sum,
    which lies in [0,21].  Both scorers are functions of the response vector
    alone: they neither read nor change the store. *)
Theorem scorer_exact_sum :
  (forall responses : list Z,
      List.length responses = 25%nat ->
      Forall (fun z => 0 <= z <= 4) responses ->
      calculate_burns_score (map VInt responses) = Ok (total responses)
      /\ 0 <= total responses <= 100)
  /\
  (forall responses : list Z,
      List.length responses = 7%nat ->
      Forall (fun z => 0 <= z <= 3) responses ->
      calculate_gad7_score (map VInt responses) = Ok (total responses)
      /\ 0 <= total responses <= 21).
Proof.
  split; intros responses Hlen Hall.
  - unfold calculate_burns_score.
    rewrite length_map, Hlen, items_accepted by assumption. simpl.
    rewrite sum_ints. split; [reflexivity|].
    pose proof (total_bounds 4 responses Hall) as Hb. rewrite Hlen in Hb. lia.
  - unfold calculate_gad7_score.
    rewrite length_map, Hlen, items_accepted by assumption. simpl.
    rewrite sum_ints. split; [reflexivity|].
    pose proof (total_bounds 3 responses Hall) as Hb. rewrite Hlen in Hb. lia.
Qed.

Lemma scorer_exact_sum_witness :
  (calculate_burns_score
     (map VInt [4; 4; 4; 4; 4; 0; 0; 0; 0; 0; 1; 1; 1; 1; 1;
                2; 2; 2; 2; 2; 3; 3; 3; 3; 3])
   = Ok (total [4; 4; 4; 4; 4; 0; 0; 0; 0; 0; 1; 1; 1; 1; 1;
                2; 2; 2; 2; 2; 3; 3; 3; 3; 3])
   /\ 0 <= total [4; 4; 4; 4; 4; 0; 0; 0; 0; 0; 1; 1; 1; 1; 1;
                  2; 2; 2; 2; 2; 3; 3; 3; 3; 3] <= 100)
  /\
  (calculate_gad7_score (map VInt [1; 2; 3; 2; 1; 0; 1])
   = Ok (total [1; 2; 3; 2; 1; 0; 1])
   /\ 0 <= total [1; 2; 3; 2; 1; 0; 1] <= 21).
Proof.
  split.
  - apply (proj1 scorer_exact_sum).
    + reflexivity.
    + repeat constructor; lia.
  - apply (proj2 scorer_exact_sum).
    + reflexivity.
    + repeat constructor; lia.
Defined.

(** ** Classifier *)

Ltac split_leb :=
  repeat match goal with
         | |- context [?a <=? ?b] => destruct (Z.leb_spec a b)
         end;
  simpl; try lia; try reflexivity.

Ltac each_band H :=
  simpl in H;
  repeat (destruct H as [H|H]; [injection H as <- <- <-|]);
  try contradiction.

Lemma depression_in_band (score lo hi : Z) (label : string) :
  In (lo, hi, label) depression_bands -> lo <= score <= hi ->
  get_depression_level score = label.
Proof.
  intros Hin Hr. unfold get_depression_level.
  each_band Hin; split_leb.
Qed.

Lemma anxiety_in_band (score lo hi : Z) (label : string) :
  In (lo, hi, label) anxiety_bands -> lo <= score <= hi ->
  get_anxiety_level score = label.
Proof.
  intros Hin Hr. unfold get_anxiety_level.
  each_band Hin; split_leb.
Qed.

Lemma depression_band_unique (score : Z) :
  0 <= score <= 100 ->
  exists! b, In b depression_bands /\ band_contains b score.
Proof.
  intros Hr.
  assert (score <= 5 \/ 6 <= score <= 10 \/ 11 <= score <= 25 \/
          26 <= score <= 50 \/ 51 <= score <= 75 \/ 76 <= score) as Hc by lia.
  destruct Hc as [Hc|[Hc|[Hc|[Hc|[Hc|Hc]]]]].
  1: exists (0, 5, "No Depression").
  2: exists (6, 10, "Normal but unhappy").
  3: exists (11, 25, "Mild depression").
  4: exists (26, 50, "Moderate depression").
  5: exists (51, 75, "Severe depression").
  6: exists (76, 100, "Extreme depression").
  all: split; [split; [simpl; tauto | simpl; lia]|].
  all: intros [[lo hi] label] [Hin Hb]; simpl in Hb.
  all: each_band Hin; try reflexivity; lia.
Qed.

Lemma anxiety_band_unique (score : Z) :
  0 <= score <= 21 ->
  exists! b, In b anxiety_bands /\ band_contains b score.
Proof.
  intros Hr.
  assert (score <= 4 \/ 5 <= score <= 9 \/ 10 <= score <= 14 \/
          15 <= score) as Hc by lia.
  destruct Hc as [Hc|[Hc|[Hc|Hc]]].
  1: exists (0, 4, "Minimal anxiety").
  2: exists (5, 9, "Mild anxiety").
  3: exists (10, 14, "Moderate anxiety").
  4: exists (15, 21, "Severe anxiety").
  all: split; [split; [simpl; tauto | simpl; lia]|].
  all: intros [[lo hi] label] [Hin Hb]; simpl in Hb.
  all: each_band Hin; try reflexivity; lia.
Qed.

Lemma depression_invalid (score : Z) :
  score < 0 \/ 100 < score -> get_depression_level score = "Invalid score".
Proof. intros Hr. unfold get_depression_level. split_leb. Qed.

Lemma anxiety_invalid (score : Z) :
  score < 0 \/ 21 < score -> get_anxiety_level score = "Invalid score".
Proof. intros Hr. unfold get_anxiety_level. split_leb. Qed.

(** C2. For every integer score, [get_depression_level] returns the label of
    the band of the table 0-5, 6-10, 11-25, 26-50, 51-75, 76-100 that
    contains the score; that band is unique, and the bands cover [0,100]
    with no gap and no overlap; score 5 yields "No Depression" and score 6
    yields "Normal but unhappy". *)
Theorem depression_level_is_band_label :
  (forall score lo hi label,
      In (lo, hi, label) depression_bands -> lo <= score <= hi ->
      get_depression_level score = label)
  /\ (forall score, 0 <= score <= 100 ->
        exists! b, In b depression_bands /\ band_contains b score)
  /\ (forall score b, In b depression_bands -> band_contains b score ->
        0 <= score <= 100)
  /\ get_depression_level 5 = "No Depression"
  /\ get_depression_level 6 = "Normal but unhappy".
Proof.
  split; [exact depression_in_band|].
  split; [exact depression_band_unique|].
  split; [|split; reflexivity].
  intros score [[lo hi] label] Hin Hb; simpl in Hb.
  each_band Hin; lia.
Qed.

Lemma depression_level_is_band_label_witness :
  get_depression_level 28 = "Moderate depression"
  /\ (exists! b, In b depression_bands /\ band_contains b 28)
  /\ 0 <= 76 <= 100.
Proof.
  split; [|split].
  - apply (proj1 depression_level_is_band_label 28 26 50).
    + simpl; tauto.
    + lia.
  - apply (proj1 (proj2 depression_level_is_band_label) 28). lia.
  - apply (proj1 (proj2 (proj2 depression_level_is_band_label))
             76 (76, 100, "Extreme depression")).
    + simpl; tauto.
    + simpl; lia.
Defined.

(** C3. For every integer score in [0,21], [get_anxiety_level] returns the
    label of the unique band of the table 0-4, 5-9, 10-14, 15-21 containing
    it; for every integer score outside all bands, negative or above the
    instrument's maximum, either classifier returns "Invalid score".  The
    classifiers are total: every integer has a label, none raises. *)
Theorem anxiety_level_and_sentinel :
  (forall score lo hi label,
      In (lo, hi, label) anxiety_bands -> lo <= score <= hi ->
      get_anxiety_level score = label)
  /\ (forall score, 0 <= score <= 21 ->
        exists! b, In b anxiety_bands /\ band_contains b score)
  /\ (forall score, score < 0 \/ 21 < score ->
        get_anxiety_level score = "Invalid score")
  /\ (forall score, score < 0 \/ 100 < score ->
        get_depression_level score = "Invalid score")
  /\ (forall score,
        (0 <= score <= 21 \/ get_anxiety_level score = "Invalid score")
        /\ (0 <= score <= 100 \/ get_depression_level score = "Invalid score")).
Proof.
  split; [exact anxiety_in_band|].
  split; [exact anxiety_band_unique|].
  split; [exact anxiety_invalid|].
  split; [exact depression_invalid|].
  intros score. split.
  - destruct (Z_lt_le_dec score 0); [right; apply anxiety_invalid; lia|].
    destruct (Z_lt_le_dec 21 score); [right; apply anxiety_invalid; lia|].
    left; lia.
  - destruct (Z_lt_le_dec score 0); [right; apply depression_invalid; lia|].
    destruct (Z_lt_le_dec 100 score); [right; apply depression_invalid; lia|].
    left; lia.
Qed.

Lemma anxiety_level_and_sentinel_witness :
  get_anxiety_level 10 = "Moderate anxiety"
  /\ (exists! b, In b anxiety_bands /\ band_contains b 21)
  /\ get_anxiety_level 22 = "Invalid score"
  /\ get_depression_level (-1) = "Invalid score".
Proof.
  split; [|split; [|split]].
  - apply (proj1 anxiety_level_and_sentinel 10 10 14).
    + simpl; tauto.
    + lia.
  - apply (proj1 (proj2 anxiety_level_and_sentinel) 21). lia.
  - apply (proj1 (proj2 (proj2 anxiety_level_and_sentinel)) 22). lia.
  - apply (proj1 (proj2 (proj2 (proj2 anxiety_level_and_sentinel))) (-1)). lia.
Defined.

(** C5, as amended.  The depression scorer maps the sample vector
    [2,1,0,2,1,3,2,1,0,2,1,0,2,1,3,2,1,0,2,1,0,2,1,0,0] to 30, the sum of
    its elements, and the classifier maps that result to
    "Moderate depression". *)
Theorem sample_burns_score :
  calculate_burns_score sample_burns_responses = Ok 30
  /\ get_depression_level 30 = "Moderate depression"
  /\ (score <- calculate_burns_score sample_burns_responses ;;
      Ok (get_depression_level score)) = Ok "Moderate depression".
Proof. repeat split; reflexivity. Qed.

(** C5, as stated, fails: the scorer does not return 28 on the sample
    vector, whose elements add up to 30. *)
Lemma sample_burns_score_is_not_28 :
  calculate_burns_score sample_burns_responses <> Ok 28.
Proof. intros H. vm_compute in H. discriminate H. Qed.

(** ** Validation failures *)

(** C4. [calculate_burns_score] raises the scorer's validation error (a
    [ValueError]) if and only if the response vector does not have exactly
    25 elements or some element is not an integer in [0,4], and
    [calculate_gad7_score] likewise with 7 elements in [0,3]; neither raises
    anything else.  A vector that is accepted is summed as it is, nothing
    clamped and nothing cut off.  When scoring raises in a submit handler,
    the exception leaves the handler before the save: the store is
    unchanged. *)
Theorem scorer_raises_iff_invalid :
  (forall responses,
      (exists msg, calculate_burns_score responses = Raise (ValueError msg)) <->
      (List.length responses <> 25%nat \/
       Exists (fun x => ~ integer_within 0 4 x) responses))
  /\ (forall responses e,
        calculate_burns_score responses = Raise e -> exists msg, e = ValueError msg)
  /\ (forall responses s,
        calculate_burns_score responses = Ok s -> s = Py.sum responses)
  /\ (forall responses,
        (exists msg, calculate_gad7_score responses = Raise (ValueError msg)) <->
        (List.length responses <> 7%nat \/
         Exists (fun x => ~ integer_within 0 3 x) responses))
  /\ (forall responses e,
        calculate_gad7_score responses = Raise e -> exists msg, e = ValueError msg)
  /\ (forall responses s,
        calculate_gad7_score responses = Ok s -> s = Py.sum responses)
  /\ (forall spins now db e,
        calculate_burns_score (map VInt spins) = Raise e ->
        calculate_burns_result spins now db = (db, Raise e))
  /\ (forall spins now db e,
        calculate_gad7_score (map VInt spins) = Raise e ->
        calculate_gad7_result spins now db = (db, Raise e)).
Proof.
  repeat apply conj.
  - intros responses. exact (proj1 (scorer_raises 25 4 _ _ responses)).
  - intros responses. exact (proj1 (proj2 (scorer_raises 25 4 _ _ responses))).
  - intros responses. exact (proj2 (proj2 (scorer_raises 25 4 _ _ responses))).
  - intros responses. exact (proj1 (scorer_raises 7 3 _ _ responses)).
  - intros responses. exact (proj1 (proj2 (scorer_raises 7 3 _ _ responses))).
  - intros responses. exact (proj2 (proj2 (scorer_raises 7 3 _ _ responses))).
  - intros spins now db e H. unfold calculate_burns_result. rewrite H. reflexivity.
  - intros spins now db e H. unfold calculate_gad7_result. rewrite H. reflexivity.
Qed.

Lemma scorer_raises_iff_invalid_witness :
  (exists msg,
      calculate_burns_score (map VInt [1; 2; 3]) = Raise (ValueError msg))
  /\ (exists msg,
        calculate_gad7_score [VInt 0; VInt 0; VInt 0; VStr "3"; VInt 0; VInt 0; VInt 0]
        = Raise (ValueError msg))
  /\ calculate_gad7_result [0; 1; 2; 3; 4; 0; 0] (mkdatetime 2024 5 17 9 30 0 0)
       (init_db None)
     = (init_db None,
        Raise (ValueError "All responses must be integers between 0 and 3")).
Proof.
  split; [|split].
  - apply (proj1 scorer_raises_iff_invalid). left. simpl. lia.
  - apply (proj1 (proj2 (proj2 (proj2 scorer_raises_iff_invalid)))).
    right. do 3 apply Exists_cons_tl. apply Exists_cons_hd.
    intros (z & Hz & _). discriminate Hz.
  - apply (proj2 (proj2 (proj2 (proj2 (proj2 (proj2
             (proj2 scorer_raises_iff_invalid))))))).
    reflexivity.
Defined.

(** ** The order on datetimes *)

Lemma lex_compare_refl (k : list Z) : lex_compare k k = Eq.
Proof.
  induction k as [|a k IH]; simpl; [reflexivity|].
  rewrite Z.compare_refl. exact IH.
Qed.

Lemma lex_compare_antisym (k1 k2 : list Z) :
  lex_compare k2 k1 = CompOpp (lex_compare k1 k2).
Proof.
  revert k2; induction k1 as [|a k1 IH]; intros [|b k2]; simpl; try reflexivity.
  rewrite (Z.compare_antisym a b).
  destruct (a ?= b); simpl; auto.
Qed.

Lemma lex_compare_le_trans (k1 k2 k3 : list Z) :
  lex_compare k1 k2 <> Gt -> lex_compare k2 k3 <> Gt ->
  lex_compare k1 k3 <> Gt.
Proof.
  revert k2 k3; induction k1 as [|a k1 IH]; intros [|b k2] [|c k3]; simpl;
    try congruence.
  destruct (Z.compare_spec a b), (Z.compare_spec b c), (Z.compare_spec a c);
    subst; try congruence; try lia; try (apply IH).
Qed.

Lemma dt_le_refl (d : datetime) : dt_le d d = true.
Proof. unfold dt_le, dt_compare. now rewrite lex_compare_refl. Qed.

Lemma dt_le_trans (d1 d2 d3 : datetime) :
  dt_le d1 d2 = true -> dt_le d2 d3 = true -> dt_le d1 d3 = true.
Proof.
  unfold dt_le, dt_compare. intros H12 H23.
  pose proof (lex_compare_le_trans (fields d1) (fields d2) (fields d3)) as T.
  destruct (lex_compare (fields d1) (fields d2)); try discriminate;
    destruct (lex_compare (fields d2) (fields d3)); try discriminate;
    destruct (lex_compare (fields d1) (fields d3)); try reflexivity;
    exfalso; apply T; congruence.
Qed.

Lemma dt_lt_not_le (d1 d2 : datetime) :
  dt_lt d1 d2 = true -> dt_le d2 d1 = false.
Proof.
  unfold dt_lt, dt_le, dt_compare.
  rewrite (lex_compare_antisym (fields d1) (fields d2)).
  destruct (lex_compare (fields d1) (fields d2)); simpl; congruence.
Qed.

Lemma dt_le_total (d1 d2 : datetime) :
  dt_le d1 d2 = true \/ dt_le d2 d1 = true.
Proof.
  unfold dt_le, dt_compare.
  rewrite (lex_compare_antisym (fields d1) (fields d2)).
  destruct (lex_compare (fields d1) (fields d2)); simpl; auto.
Qed.

(** No valid datetime lies before [datetime.min]. *)
Lemma datetime_min_le (d : datetime) :
  valid_datetime d = true -> dt_le datetime_min d = true.
Proof.
  unfold valid_datetime, MINYEAR. intros H.
  repeat (apply andb_true_iff in H as [H ?]).
  repeat match goal with
         | H : (_ <=? _) = true |- _ => apply Z.leb_le in H
         end.
  unfold dt_le, dt_compare, fields, datetime_min;
    cbn [lex_compare year month day hour minute second microsecond].
  repeat match goal with
         | |- context [?a ?= ?b] =>
             destruct (Z.compare_spec a b); try lia; try reflexivity
         end.
Qed.

(** ** The timestamp format *)

Lemma digit_cases (d : Z) :
  0 <= d <= 9 ->
  d = 0 \/ d = 1 \/ d = 2 \/ d = 3 \/ d = 4 \/
  d = 5 \/ d = 6 \/ d = 7 \/ d = 8 \/ d = 9.
Proof. lia. Qed.

Lemma digit_of_digit_char (d : Z) :
  0 <= d <= 9 -> digit_of (digit_char d) = Some d.
Proof.
  intros H. apply digit_cases in H.
  repeat (destruct H as [H|H]; [subst d; reflexivity|]).
  subst d; reflexivity.
Qed.

Lemma compare_digit_char (a b : Z) :
  0 <= a <= 9 -> 0 <= b <= 9 ->
  Ascii.compare (digit_char a) (digit_char b) = (a ?= b).
Proof.
  intros Ha Hb. apply digit_cases in Ha, Hb.
  repeat (destruct Ha as [Ha|Ha]; [subst a|]); try subst a;
    repeat (destruct Hb as [Hb|Hb]; [subst b; reflexivity|]);
    subst b; reflexivity.
Qed.

Lemma pow10_pos (n : nat) : 0 < 10 ^ Z.of_nat n.
Proof. apply Z.pow_pos_nonneg; lia. Qed.

Lemma pow10_succ (n : nat) : 10 ^ Z.of_nat (S n) = 10 * 10 ^ Z.of_nat n.
Proof. rewrite Nat2Z.inj_succ, Z.pow_succ_r by lia. reflexivity. Qed.

(** The leading digit and the rest of an [S n]-digit number. *)
Lemma leading_digit (n : nat) (z : Z) :
  0 <= z < 10 ^ Z.of_nat (S n) ->
  0 <= z / 10 ^ Z.of_nat n <= 9
  /\ (z / 10 ^ Z.of_nat n) mod 10 = z / 10 ^ Z.of_nat n
  /\ z = (z / 10 ^ Z.of_nat n) * 10 ^ Z.of_nat n + z mod 10 ^ Z.of_nat n
  /\ 0 <= z mod 10 ^ Z.of_nat n < 10 ^ Z.of_nat n.
Proof.
  intros Hz. rewrite pow10_succ in Hz.
  pose proof (pow10_pos n) as Hp.
  assert (0 <= z / 10 ^ Z.of_nat n <= 9) as Hq.
  { split.
    - apply Z.div_pos; lia.
    - apply Z.lt_succ_r. apply Z.div_lt_upper_bound; lia. }
  split; [exact Hq|]. split; [apply Z.mod_small; lia|]. split.
  - pose proof (Z.div_mod z (10 ^ Z.of_nat n)). lia.
  - apply Z.mod_pos_bound; lia.
Qed.

(** Reading back the digits [pad] wrote. *)
Lemma read_digits_pad (n : nat) (z acc : Z) (rest : string) :
  0 <= z < 10 ^ Z.of_nat n ->
  read_digits n acc (pad n z ++ rest) = Some (acc * 10 ^ Z.of_nat n + z, rest).
Proof.
  revert z acc. induction n as [|n IH]; intros z acc Hz.
  - simpl in *. f_equal. f_equal. lia.
  - destruct (leading_digit n z Hz) as (Hq & Hm & Hsplit & Hr).
    cbn [pad read_digits append]. rewrite Hm.
    rewrite digit_of_digit_char by exact Hq.
    rewrite IH by exact Hr. f_equal. f_equal.
    rewrite pow10_succ. lia.
Qed.

(** Byte-wise comparison of two equally wide zero-filled numbers is the
    comparison of the numbers; on a tie the comparison goes on with what
    follows. *)
Lemma compare_pad (n : nat) (a b : Z) (s1 s2 : string) :
  0 <= a < 10 ^ Z.of_nat n -> 0 <= b < 10 ^ Z.of_nat n ->
  String.compare (pad n a ++ s1) (pad n b ++ s2)
  = match a ?= b with
    | Eq => String.compare s1 s2
    | c => c
    end.
Proof.
  revert a b. induction n as [|n IH]; intros a b Ha Hb.
  - simpl in Ha, Hb. assert (a = 0) by lia. assert (b = 0) by lia. subst.
    reflexivity.
  - destruct (leading_digit n a Ha) as (Hqa & Hma & Hsa & Hra).
    destruct (leading_digit n b Hb) as (Hqb & Hmb & Hsb & Hrb).
    cbn [pad append String.compare]. rewrite Hma, Hmb.
    rewrite compare_digit_char by assumption.
    rewrite IH by assumption.
    pose proof (pow10_pos n) as Hp.
    destruct (Z.compare_spec (a / 10 ^ Z.of_nat n) (b / 10 ^ Z.of_nat n))
      as [Hq|Hq|Hq].
    + destruct (Z.compare_spec (a mod 10 ^ Z.of_nat n) (b mod 10 ^ Z.of_nat n));
        destruct (Z.compare_spec a b); try reflexivity; exfalso; nia.
    + destruct (Z.compare_spec a b); try reflexivity; exfalso; nia.
    + destruct (Z.compare_spec a b); try reflexivity; exfalso; nia.
Qed.

Lemma length_pad (n : nat) (z : Z) : String.length (pad n z) = n.
Proof.
  revert z; induction n as [|n IH]; intros z; simpl; [reflexivity|].
  now rewrite IH.
Qed.

Lemma append_empty_r (s : string) : s ++ "" = s.
Proof. induction s as [|c s IH]; simpl; [reflexivity | now rewrite IH]. Qed.

Lemma read_digits_pad0 (n : nat) (z : Z) (rest : string) :
  0 <= z < 10 ^ Z.of_nat n ->
  read_digits n 0 (pad n z ++ rest) = Some (z, rest).
Proof. intros H. rewrite read_digits_pad by exact H. reflexivity. Qed.

Lemma days_in_month_le_31 (y m : Z) : days_in_month y m <= 31.
Proof.
  unfold days_in_month.
  destruct (m =? 2); [destruct (is_leap y); lia|].
  destruct ((m =? 4) || (m =? 6) || (m =? 9) || (m =? 11)); lia.
Qed.

(** The field ranges of a valid datetime, as the widths of the format
    need them. *)
Lemma valid_datetime_widths (d : datetime) :
  valid_datetime d = true ->
  0 <= year d < 10 ^ Z.of_nat 4 /\ 0 <= month d < 10 ^ Z.of_nat 2 /\
  0 <= day d < 10 ^ Z.of_nat 2 /\ 0 <= hour d < 10 ^ Z.of_nat 2 /\
  0 <= minute d < 10 ^ Z.of_nat 2 /\ 0 <= second d < 10 ^ Z.of_nat 2.
Proof.
  unfold valid_datetime, MINYEAR, MAXYEAR. intros H.
  repeat (apply andb_true_iff in H as [H ?]).
  repeat match goal with
         | H : (_ <=? _) = true |- _ => apply Z.leb_le in H
         end.
  pose proof (days_in_month_le_31 (year d) (month d)).
  change (10 ^ Z.of_nat 4) with 10000. change (10 ^ Z.of_nat 2) with 100.
  lia.
Qed.

Lemma valid_to_second (d : datetime) :
  valid_datetime d = true -> valid_datetime (to_second d) = true.
Proof.
  unfold valid_datetime, to_second; simpl. intros H.
  repeat (apply andb_true_iff in H as [H ?]).
  repeat (apply andb_true_iff; split); assumption || reflexivity.
Qed.

(** Parsing what [strftime] wrote gives the datetime back, to the second. *)
Lemma strptime_strftime (d : datetime) :
  valid_datetime d = true -> strptime (strftime d) = Ok (to_second d).
Proof.
  intros Hv.
  destruct (valid_datetime_widths d Hv) as (Hy & Hmo & Hd & Hh & Hmi & Hs).
  unfold strptime, read_fields, strftime.
  rewrite <- (append_empty_r (pad 2 (second d))).
  rewrite read_digits_pad0 by exact Hy. cbn [obind expect append Ascii.eqb Bool.eqb].
  rewrite read_digits_pad0 by exact Hmo. cbn [obind expect append Ascii.eqb Bool.eqb].
  rewrite read_digits_pad0 by exact Hd. cbn [obind expect append Ascii.eqb Bool.eqb].
  rewrite read_digits_pad0 by exact Hh. cbn [obind expect append Ascii.eqb Bool.eqb].
  rewrite read_digits_pad0 by exact Hmi. cbn [obind expect append Ascii.eqb Bool.eqb].
  rewrite read_digits_pad0 by exact Hs. cbn [obind].
  fold (to_second d). rewrite (valid_to_second d Hv). reflexivity.
Qed.

(** On timestamps in the format, byte-wise order is chronological order. *)
Lemma compare_strftime (d1 d2 : datetime) :
  valid_datetime d1 = true -> valid_datetime d2 = true ->
  String.compare (strftime d1) (strftime d2)
  = dt_compare (to_second d1) (to_second d2).
Proof.
  intros Hv1 Hv2.
  destruct (valid_datetime_widths d1 Hv1) as (Hy1 & Hmo1 & Hd1 & Hh1 & Hmi1 & Hs1).
  destruct (valid_datetime_widths d2 Hv2) as (Hy2 & Hmo2 & Hd2 & Hh2 & Hmi2 & Hs2).
  unfold strftime, dt_compare, fields, to_second.
  cbn [lex_compare year month day hour minute second microsecond].
  rewrite <- (append_empty_r (pad 2 (second d1))).
  rewrite <- (append_empty_r (pad 2 (second d2))).
  rewrite compare_pad by assumption.
  destruct (year d1 ?= year d2); try reflexivity.
  cbn [append String.compare]. change (Ascii.compare "-" "-") with Eq. cbv iota.
  rewrite compare_pad by assumption.
  destruct (month d1 ?= month d2); try reflexivity.
  cbn [append String.compare]. change (Ascii.compare "-" "-") with Eq. cbv iota.
  rewrite compare_pad by assumption.
  destruct (day d1 ?= day d2); try reflexivity.
  cbn [append String.compare]. change (Ascii.compare " " " ") with Eq. cbv iota.
  rewrite compare_pad by assumption.
  destruct (hour d1 ?= hour d2); try reflexivity.
  cbn [append String.compare]. change (Ascii.compare ":" ":") with Eq. cbv iota.
  rewrite compare_pad by assumption.
  destruct (minute d1 ?= minute d2); try reflexivity.
  cbn [append String.compare]. change (Ascii.compare ":" ":") with Eq. cbv iota.
  rewrite compare_pad by assumption.
  destruct (second d1 ?= second d2); reflexivity.
Qed.

Lemma length_append (s1 s2 : string) :
  String.length (s1 ++ s2) = (String.length s1 + String.length s2)%nat.
Proof. induction s1 as [|c s1 IH]; simpl; [reflexivity | now rewrite IH]. Qed.

Lemma length_strftime (d : datetime) : String.length (strftime d) = 19%nat.
Proof.
  unfold strftime. repeat rewrite length_append. repeat rewrite length_pad.
  reflexivity.
Qed.

(** ** The listing [ORDER BY timestamp DESC] *)

Open Scope list_scope.

Lemma place_split (e : entry) (sorted : list entry) :
  exists before after,
    sorted = before ++ after /\ place e sorted = before ++ e :: after.
Proof.
  induction sorted as [|x rest IH]; simpl.
  - exists [], []. split; reflexivity.
  - destruct (String.ltb (entry_timestamp x) (entry_timestamp e)).
    + exists [], (x :: rest). split; reflexivity.
    + destruct IH as (before & after & H1 & H2).
      exists (x :: before), after. simpl. rewrite H1 at 1. rewrite H2.
      split; reflexivity.
Qed.

Lemma place_perm (e : entry) (sorted : list entry) :
  Permutation (e :: sorted) (place e sorted).
Proof.
  destruct (place_split e sorted) as (before & after & H1 & H2).
  rewrite H2, H1. apply Permutation_middle.
Qed.

Lemma order_by_snoc (rs : list entry) (r : entry) :
  order_by_timestamp_desc (rs ++ [r]) = place r (order_by_timestamp_desc rs).
Proof. unfold order_by_timestamp_desc. rewrite fold_left_app. reflexivity. Qed.

Lemma order_by_perm (rs : list entry) :
  Permutation rs (order_by_timestamp_desc rs).
Proof.
  induction rs as [|r rs IH] using rev_ind.
  - apply perm_nil.
  - rewrite order_by_snoc.
    eapply Permutation_trans; [|apply place_perm].
    eapply Permutation_trans; [apply Permutation_sym, Permutation_cons_append|].
    apply perm_skip, IH.
Qed.

Lemma ltb_true_flip (s1 s2 : string) :
  String.ltb s1 s2 = true -> String.ltb s2 s1 = false.
Proof.
  unfold String.ltb. rewrite (String.compare_antisym s2 s1).
  destruct (String.compare s1 s2); simpl; congruence.
Qed.

Lemma place_sorted (e : entry) (sorted : list entry) :
  Sorted not_older_text sorted -> Sorted not_older_text (place e sorted).
Proof.
  induction 1 as [|x rest Hs IH Hhd]; simpl.
  - repeat constructor.
  - destruct (String.ltb (entry_timestamp x) (entry_timestamp e)) eqn:Hlt.
    + constructor; [constructor; assumption|].
      constructor. apply ltb_true_flip, Hlt.
    + constructor; [exact IH|].
      destruct Hhd as [|y rest' Hxy]; simpl.
      * constructor. exact Hlt.
      * destruct (String.ltb (entry_timestamp y) (entry_timestamp e));
          constructor; assumption.
Qed.

Lemma order_by_sorted (rs : list entry) :
  Sorted not_older_text (order_by_timestamp_desc rs).
Proof.
  induction rs as [|r rs IH] using rev_ind.
  - constructor.
  - rewrite order_by_snoc. apply place_sorted, IH.
Qed.

Lemma max_rowid_ge (rs : list entry) (e : entry) :
  In e rs -> entry_id e <= max_rowid rs.
Proof.
  induction rs as [|x rs IH]; simpl; [contradiction|].
  intros [->|H]; [lia|]. specialize (IH H). lia.
Qed.

Lemma next_rowid_fresh (t : table) :
  Forall (fun e => entry_id e < next_rowid t) (rows t).
Proof.
  apply Forall_forall. intros e He.
  apply max_rowid_ge in He. unfold next_rowid. lia.
Qed.

(** What one [INSERT] does to the listing of its table. *)
Lemma insert_listing (t : table) (score : Z) (level ts : string) :
  exists before after,
    order_by_timestamp_desc (rows t) = before ++ after
    /\ order_by_timestamp_desc (rows (snd (insert t score level ts)))
       = before ++ mkentry (fst (insert t score level ts)) score level ts :: after
    /\ Forall (fun e => entry_id e < fst (insert t score level ts))
              (order_by_timestamp_desc (rows t)).
Proof.
  unfold insert; cbn [fst snd rows].
  rewrite order_by_snoc.
  destruct (place_split (mkentry (next_rowid t) score level ts)
              (order_by_timestamp_desc (rows t))) as (before & after & H1 & H2).
  exists before, after. split; [exact H1|]. split; [exact H2|].
  eapply Permutation_Forall; [apply order_by_perm|]. apply next_rowid_fresh.
Qed.

(** ** Round trip of a save *)

(** C8. From any state of the store, saving a score and then listing all
    entries gives the prior listing with exactly one record added, the
    others unchanged and in their order; the new record carries the saved
    score, the classifier's label of that score and the identifier the save
    returned, which is strictly greater than every identifier listed before
    the save.  The other instrument's listing is untouched.  The same holds
    for the GAD-7 table. *)
Theorem save_then_list_adds_one :
  (forall score now db,
      exists before after,
        get_all_entries db = before ++ after
        /\ get_all_entries (snd (save_score score now db))
           = before
             ++ mkentry (fst (save_score score now db)) score
                        (get_depression_level score) (strftime now)
             :: after
        /\ Forall (fun e => entry_id e < fst (save_score score now db))
                  (get_all_entries db)
        /\ get_all_gad7_entries (snd (save_score score now db))
           = get_all_gad7_entries db)
  /\
  (forall score now db,
      exists before after,
        get_all_gad7_entries db = before ++ after
        /\ get_all_gad7_entries (snd (save_gad7_score score now db))
           = before
             ++ mkentry (fst (save_gad7_score score now db)) score
                        (get_anxiety_level score) (strftime now)
             :: after
        /\ Forall (fun e => entry_id e < fst (save_gad7_score score now db))
                  (get_all_gad7_entries db)
        /\ get_all_entries (snd (save_gad7_score score now db))
           = get_all_entries db).
Proof.
  split; intros score now db.
  - destruct (insert_listing (checklist_entries db) score
                (get_depression_level score) (strftime now))
      as (before & after & H1 & H2 & H3).
    exists before, after. unfold get_all_entries, get_all_gad7_entries, save_score.
    destruct (insert (checklist_entries db) score (get_depression_level score)
                (strftime now)) as [id t] eqn:Hins.
    cbn [fst snd checklist_entries gad7_entries] in *.
    repeat split; assumption.
  - destruct (insert_listing (gad7_entries db) score
                (get_anxiety_level score) (strftime now))
      as (before & after & H1 & H2 & H3).
    exists before, after.
    unfold get_all_entries, get_all_gad7_entries, save_gad7_score.
    destruct (insert (gad7_entries db) score (get_anxiety_level score)
                (strftime now)) as [id t] eqn:Hins.
    cbn [fst snd checklist_entries gad7_entries] in *.
    repeat split; assumption.
Qed.

(** ** Invariants of the store *)

Lemma save_score_rows (score : Z) (now : datetime) (db : database) :
  rows (checklist_entries (snd (save_score score now db)))
  = rows (checklist_entries db)
    ++ [mkentry (fst (save_score score now db)) score
                (get_depression_level score) (strftime now)]
  /\ gad7_entries (snd (save_score score now db)) = gad7_entries db.
Proof. split; reflexivity. Qed.

Lemma save_gad7_score_rows (score : Z) (now : datetime) (db : database) :
  rows (gad7_entries (snd (save_gad7_score score now db)))
  = rows (gad7_entries db)
    ++ [mkentry (fst (save_gad7_score score now db)) score
                (get_anxiety_level score) (strftime now)]
  /\ checklist_entries (snd (save_gad7_score score now db))
     = checklist_entries db.
Proof. split; reflexivity. Qed.

Lemma Forall_snoc {A} (P : A -> Prop) (l : list A) (x : A) :
  Forall P l -> P x -> Forall P (l ++ [x]).
Proof. intros Hl Hx. apply Forall_app. split; [exact Hl | now constructor]. Qed.

Lemma labels_consistent_save_score (score : Z) (now : datetime) (db : database) :
  labels_consistent db -> labels_consistent (snd (save_score score now db)).
Proof.
  intros [Hc Hg]. destruct (save_score_rows score now db) as [Hr Ho].
  split.
  - rewrite Hr. apply Forall_snoc; [exact Hc | reflexivity].
  - rewrite Ho. exact Hg.
Qed.

Lemma labels_consistent_save_gad7_score
  (score : Z) (now : datetime) (db : database) :
  labels_consistent db -> labels_consistent (snd (save_gad7_score score now db)).
Proof.
  intros [Hc Hg]. destruct (save_gad7_score_rows score now db) as [Hr Ho].
  split.
  - rewrite Ho. exact Hc.
  - rewrite Hr. apply Forall_snoc; [exact Hg | reflexivity].
Qed.

Lemma reachable_labels_consistent (db : database) :
  reachable db -> labels_consistent db.
Proof.
  induction 1 as [|score now db _ IH _|score now db _ IH _].
  - split; constructor.
  - apply labels_consistent_save_score, IH.
  - apply labels_consistent_save_gad7_score, IH.
Qed.

Lemma timestamps_save_score (score : Z) (now : datetime) (db : database) :
  valid_datetime now = true ->
  timestamps_well_formed db ->
  timestamps_well_formed (snd (save_score score now db)).
Proof.
  intros Hv [Hc Hg]. destruct (save_score_rows score now db) as [Hr Ho].
  split.
  - rewrite Hr. apply Forall_snoc; [exact Hc|].
    exists now. split; [exact Hv | reflexivity].
  - rewrite Ho. exact Hg.
Qed.

Lemma timestamps_save_gad7_score (score : Z) (now : datetime) (db : database) :
  valid_datetime now = true ->
  timestamps_well_formed db ->
  timestamps_well_formed (snd (save_gad7_score score now db)).
Proof.
  intros Hv [Hc Hg]. destruct (save_gad7_score_rows score now db) as [Hr Ho].
  split.
  - rewrite Ho. exact Hc.
  - rewrite Hr. apply Forall_snoc; [exact Hg|].
    exists now. split; [exact Hv | reflexivity].
Qed.

Lemma reachable_timestamps (db : database) :
  reachable db -> timestamps_well_formed db.
Proof.
  induction 1 as [|score now db _ IH Hv|score now db _ IH Hv].
  - split; constructor.
  - apply timestamps_save_score; assumption.
  - apply timestamps_save_gad7_score; assumption.
Qed.

(** C9. Every entry of every reachable state of the store carries the label
    its instrument's classifier gives its score, because each save computes
    the label from the score it inserts; each save preserves this.  The
    saves take any integer score: for a score outside the instrument's range
    the entry is persisted all the same, labelled "Invalid score". *)
Theorem persisted_label_is_classifier_output :
  (forall db, reachable db -> labels_consistent db)
  /\ (forall score now db,
        labels_consistent db ->
        labels_consistent (snd (save_score score now db))
        /\ labels_consistent (snd (save_gad7_score score now db)))
  /\ (forall score now db,
        score < 0 \/ 100 < score ->
        In (mkentry (fst (save_score score now db)) score
                    "Invalid score" (strftime now))
           (get_all_entries (snd (save_score score now db))))
  /\ (forall score now db,
        score < 0 \/ 21 < score ->
        In (mkentry (fst (save_gad7_score score now db)) score
                    "Invalid score" (strftime now))
           (get_all_gad7_entries (snd (save_gad7_score score now db)))).
Proof.
  split; [exact reachable_labels_consistent|].
  split; [|split].
  - intros score now db H. split.
    + apply labels_consistent_save_score, H.
    + apply labels_consistent_save_gad7_score, H.
  - intros score now db Hr.
    eapply Permutation_in; [apply order_by_perm|].
    rewrite (proj1 (save_score_rows score now db)).
    apply in_or_app. right. left.
    rewrite (depression_invalid score Hr). reflexivity.
  - intros score now db Hr.
    eapply Permutation_in; [apply order_by_perm|].
    rewrite (proj1 (save_gad7_score_rows score now db)).
    apply in_or_app. right. left.
    rewrite (anxiety_invalid score Hr). reflexivity.
Qed.

Lemma persisted_label_is_classifier_output_witness :
  labels_consistent
    (snd (save_gad7_score 22 (mkdatetime 2024 5 17 9 30 0 0)
            (snd (save_score 101 (mkdatetime 2024 5 17 9 29 58 0)
                    (init_db None)))))
  /\ In (mkentry 1 101 "Invalid score" "2024-05-17 09:29:58")
        (get_all_entries
           (snd (save_score 101 (mkdatetime 2024 5 17 9 29 58 0)
                   (init_db None)))).
Proof.
  split.
  - apply (proj1 persisted_label_is_classifier_output).
    apply reach_save_gad7_score; [|reflexivity].
    apply reach_save_score; [|reflexivity].
    apply reach_init.
  - apply (proj1 (proj2 (proj2 persisted_label_is_classifier_output))
             101 (mkdatetime 2024 5 17 9 29 58 0) (init_db None)).
    right. lia.
Defined.

(** ** Timestamps: format, order, parsing *)

Lemma well_stamped_parses (e : entry) :
  well_stamped e ->
  exists d, parses_to e d /\ valid_datetime d = true /\ microsecond d = 0
            /\ entry_timestamp e = strftime d.
Proof.
  intros (d & Hv & Hts). exists (to_second d).
  unfold parses_to. rewrite Hts. split; [apply strptime_strftime, Hv|].
  split; [apply valid_to_second, Hv|]. split; reflexivity.
Qed.

Lemma parses_to_fun (e : entry) (d1 d2 : datetime) :
  parses_to e d1 -> parses_to e d2 -> d1 = d2.
Proof. unfold parses_to. congruence. Qed.

Lemma compare_timestamps (e1 e2 : entry) (d1 d2 : datetime) :
  well_stamped e1 -> well_stamped e2 ->
  parses_to e1 d1 -> parses_to e2 d2 ->
  String.compare (entry_timestamp e1) (entry_timestamp e2) = dt_compare d1 d2.
Proof.
  intros (c1 & Hv1 & Hts1) (c2 & Hv2 & Hts2) Hp1 Hp2.
  unfold parses_to in Hp1, Hp2. rewrite Hts1 in *. rewrite Hts2 in *.
  rewrite strptime_strftime in Hp1, Hp2 by assumption.
  injection Hp1 as <-. injection Hp2 as <-.
  apply compare_strftime; assumption.
Qed.

Lemma not_older_of_text (e1 e2 : entry) :
  well_stamped e1 -> well_stamped e2 ->
  not_older_text e1 e2 -> not_older e1 e2.
Proof.
  intros Hs1 Hs2 Ht.
  destruct (well_stamped_parses e1 Hs1) as (d1 & Hp1 & _).
  destruct (well_stamped_parses e2 Hs2) as (d2 & Hp2 & _).
  exists d1, d2. split; [exact Hp1|]. split; [exact Hp2|].
  unfold not_older_text, String.ltb in Ht.
  rewrite (compare_timestamps e1 e2 d1 d2) in Ht by assumption.
  unfold dt_le, dt_compare in *.
  rewrite (lex_compare_antisym (fields d1) (fields d2)).
  destruct (lex_compare (fields d1) (fields d2)); simpl; congruence.
Qed.

Lemma not_older_trans (e1 e2 e3 : entry) :
  not_older e1 e2 -> not_older e2 e3 -> not_older e1 e3.
Proof.
  intros (d1 & d2 & Hp1 & Hp2 & H21) (d2' & d3 & Hp2' & Hp3 & H32).
  rewrite (parses_to_fun e2 d2' d2 Hp2' Hp2) in H32.
  exists d1, d3. split; [exact Hp1|]. split; [exact Hp3|].
  eapply dt_le_trans; eassumption.
Qed.

Lemma Sorted_among {A} (P : A -> Prop) (R R' : A -> A -> Prop) (l : list A) :
  (forall x y, P x -> P y -> R x y -> R' x y) ->
  Forall P l -> Sorted R l -> Sorted R' l.
Proof.
  intros Himp HP HS. induction HS as [|x l HS IH Hhd]; [constructor|].
  inversion HP as [|? ? Hx Hl]; subst.
  constructor; [apply IH, Hl|].
  destruct Hhd as [|y l' Hxy]; constructor.
  inversion Hl; subst. apply Himp; assumption.
Qed.

(** The listing of well-stamped rows is newest first by date. *)
Lemma listing_newest_first (rs : list entry) :
  Forall well_stamped rs ->
  StronglySorted not_older (order_by_timestamp_desc rs).
Proof.
  intros Hs. apply Sorted_StronglySorted.
  - intros x y z. apply not_older_trans.
  - apply (Sorted_among well_stamped not_older_text not_older).
    + exact not_older_of_text.
    + eapply Permutation_Forall; [apply order_by_perm | exact Hs].
    + apply order_by_sorted.
Qed.

(** The filter does not raise on entries whose timestamps parse. *)
Lemma filtered_entries_spec (start_date now : datetime)
  (entries : list entry) (dates : list datetime) :
  Forall2 parses_to entries dates ->
  filtered_entries start_date now entries
  = Ok (map plot_point
          (filter (in_window start_date now) (combine entries dates))).
Proof.
  induction 1 as [|e d entries dates Hp _ IH]; [reflexivity|].
  unfold parses_to in Hp.
  cbn [filtered_entries combine filter]. rewrite Hp, IH.
  change (in_window start_date now (e, d))
    with (dt_le start_date d && dt_le d now).
  unfold dt_ge. cbn [Py.bind].
  destruct (dt_le start_date d); cbn [andb Py.bind]; [|reflexivity].
  destruct (dt_le d now); reflexivity.
Qed.

Lemma parsed_dates (entries : list entry) :
  Forall well_stamped entries ->
  exists dates, Forall2 parses_to entries dates.
Proof.
  induction 1 as [|e entries He _ (dates & IH)].
  - exists []. constructor.
  - destruct (well_stamped_parses e He) as (d & Hp & _).
    exists (d :: dates). constructor; assumption.
Qed.

Lemma listing_well_stamped (db : database) :
  reachable db ->
  Forall well_stamped (get_all_entries db) /\
  Forall well_stamped (get_all_gad7_entries db).
Proof.
  intros Hr. destruct (reachable_timestamps db Hr) as [Hc Hg].
  split; (eapply Permutation_Forall; [apply order_by_perm | assumption]).
Qed.

(** C10. Every timestamp the saves persist is a string in the format
    ['%Y-%m-%d %H:%M:%S']: 19 characters, the rendering of a valid datetime
    to the second; each save preserves this, so it holds in every reachable
    state.  On such strings the byte-wise comparison is the comparison of
    the dates, so the listing [ORDER BY timestamp DESC] is newest first by
    date; and [strptime] succeeds on every stored timestamp, so the filter
    of [update_graph] does not raise. *)
Theorem timestamps_fixed_format :
  (forall db, reachable db -> timestamps_well_formed db)
  /\ (forall score now db,
        valid_datetime now = true -> timestamps_well_formed db ->
        timestamps_well_formed (snd (save_score score now db))
        /\ timestamps_well_formed (snd (save_gad7_score score now db)))
  /\ (forall e, well_stamped e ->
        String.length (entry_timestamp e) = 19%nat
        /\ exists d, parses_to e d /\ valid_datetime d = true
                     /\ microsecond d = 0 /\ entry_timestamp e = strftime d)
  /\ (forall e1 e2 d1 d2,
        well_stamped e1 -> well_stamped e2 ->
        parses_to e1 d1 -> parses_to e2 d2 ->
        String.compare (entry_timestamp e1) (entry_timestamp e2)
        = dt_compare d1 d2)
  /\ (forall db, reachable db ->
        StronglySorted not_older (get_all_entries db)
        /\ StronglySorted not_older (get_all_gad7_entries db))
  /\ (forall db start_date end_date, reachable db ->
        (exists points,
            filtered_entries start_date end_date (get_all_entries db)
            = Ok points)
        /\ (exists points,
               filtered_entries start_date end_date (get_all_gad7_entries db)
               = Ok points)).
Proof.
  split; [exact reachable_timestamps|].
  split; [|split; [|split; [|split]]].
  - intros score now db Hv Hwf. split.
    + apply timestamps_save_score; assumption.
    + apply timestamps_save_gad7_score; assumption.
  - intros e He. split; [|apply well_stamped_parses, He].
    destruct He as (d & _ & ->). apply length_strftime.
  - exact compare_timestamps.
  - intros db Hr. destruct (reachable_timestamps db Hr) as [Hc Hg].
    split; apply listing_newest_first; assumption.
  - intros db start_date end_date Hr.
    destruct (listing_well_stamped db Hr) as [Hc Hg].
    destruct (parsed_dates _ Hc) as (dc & Hdc).
    destruct (parsed_dates _ Hg) as (dg & Hdg).
    split; eexists; apply filtered_entries_spec; eassumption.
Qed.

Lemma timestamps_fixed_format_witness :
  timestamps_well_formed
    (snd (save_gad7_score 10 (mkdatetime 2024 5 17 9 30 0 123456)
            (init_db None)))
  /\ String.length "2024-05-17 09:30:00" = 19%nat
  /\ StronglySorted not_older
       (get_all_gad7_entries
          (snd (save_gad7_score 10 (mkdatetime 2024 5 17 9 30 0 123456)
                  (init_db None)))).
Proof.
  assert (reachable (snd (save_gad7_score 10
                            (mkdatetime 2024 5 17 9 30 0 123456)
                            (init_db None)))) as Hr.
  { apply reach_save_gad7_score; [apply reach_init | reflexivity]. }
  split; [|split].
  - apply (proj1 timestamps_fixed_format). exact Hr.
  - apply (proj1 (proj1 (proj2 (proj2 timestamps_fixed_format))
                    (mkentry 1 10 "Moderate anxiety" "2024-05-17 09:30:00")
                    (ex_intro _ (mkdatetime 2024 5 17 9 30 0 123456)
                       (conj eq_refl eq_refl)))).
  - apply (proj1 (proj2 (proj2 (proj2 (proj2 timestamps_fixed_format))))).
    exact Hr.
Defined.

(** ** The time filter *)

Lemma parses_to_valid (e : entry) (d : datetime) :
  parses_to e d -> valid_datetime d = true.
Proof.
  unfold parses_to, strptime.
  destruct (read_fields (entry_timestamp e)) as [d'|]; [|discriminate].
  destruct (valid_datetime d') eqn:Hv; [|discriminate].
  intros H. injection H as <-. exact Hv.
Qed.

Lemma filter_none {A} (f : A -> bool) (l : list A) :
  (forall x, In x l -> f x = false) -> filter f l = [].
Proof.
  induction l as [|x l IH]; intros H; simpl; [reflexivity|].
  rewrite (H x (or_introl eq_refl)). apply IH.
  intros y Hy. apply H. right. exact Hy.
Qed.

Lemma filter_all {A} (f : A -> bool) (l : list A) :
  (forall x, In x l -> f x = true) -> filter f l = l.
Proof.
  induction l as [|x l IH]; intros H; simpl; [reflexivity|].
  rewrite (H x (or_introl eq_refl)). f_equal. apply IH.
  intros y Hy. apply H. right. exact Hy.
Qed.

(** An inverted window holds no date. *)
Lemma inverted_window_empty (start_date end_date : datetime)
  (p : entry * datetime) :
  dt_lt end_date start_date = true -> in_window start_date end_date p = false.
Proof.
  intros Hinv. unfold in_window.
  destruct (dt_le start_date (snd p)) eqn:H1; [|reflexivity].
  destruct (dt_le (snd p) end_date) eqn:H2; [|reflexivity].
  pose proof (dt_le_trans _ _ _ H1 H2) as H.
  rewrite (dt_lt_not_le _ _ Hinv) in H. discriminate H.
Qed.

Lemma selected_entries_parse (graph_type : string) (db : database) :
  reachable db ->
  exists dates, Forall2 parses_to (selected_entries graph_type db) dates.
Proof.
  intros Hr. destruct (listing_well_stamped db Hr) as [Hc Hg].
  unfold selected_entries.
  destruct (contains "Depression" graph_type); apply parsed_dates; assumption.
Qed.

Lemma update_graph_window (graph_type filter_type : string)
  (now date_from date_to start_date end_date : datetime) (db : database) :
  window filter_type now date_from date_to = Ok (start_date, end_date) ->
  update_graph graph_type filter_type now date_from date_to db
  = filtered_entries start_date end_date (selected_entries graph_type db).
Proof. intros Hw. unfold update_graph. rewrite Hw. reflexivity. Qed.

(** C6. For every list of entries (with timestamps in the stored format)
    and every window, the time filter keeps exactly the entries whose
    timestamp [t] satisfies [start <= t <= end], both ends included, in the
    order of the input; so a window with [end < start], as a custom window
    can be, gives the empty sequence whatever the entries are, and raises
    nothing. *)
Theorem filter_keeps_window_in_order :
  (forall start_date end_date entries dates,
      Forall2 parses_to entries dates ->
      filtered_entries start_date end_date entries
      = Ok (map plot_point
              (filter (in_window start_date end_date)
                      (combine entries dates))))
  /\ (forall e d, parses_to e d ->
        filtered_entries d d [e] = Ok [(entry_score e, d)])
  /\ (forall start_date end_date entries dates,
        Forall2 parses_to entries dates ->
        dt_lt end_date start_date = true ->
        filtered_entries start_date end_date entries = Ok [])
  /\ (forall graph_type now date_from date_to db,
        reachable db ->
        dt_lt date_to date_from = true ->
        update_graph graph_type "Custom" now date_from date_to db = Ok []).
Proof.
  split; [exact filtered_entries_spec|]. split; [|split].
  - intros e d Hp.
    rewrite (filtered_entries_spec d d [e] [d]) by (repeat constructor; exact Hp).
    cbn [combine filter]. unfold in_window. cbn [snd].
    rewrite dt_le_refl. reflexivity.
  - intros start_date end_date entries dates Hp Hinv.
    rewrite (filtered_entries_spec _ _ _ _ Hp).
    rewrite filter_none; [reflexivity|].
    intros p _. apply inverted_window_empty, Hinv.
  - intros graph_type now date_from date_to db Hr Hinv.
    rewrite (update_graph_window _ _ _ _ _ date_from date_to) by reflexivity.
    destruct (selected_entries_parse graph_type db Hr) as (dates & Hp).
    rewrite (filtered_entries_spec _ _ _ _ Hp).
    rewrite filter_none; [reflexivity|].
    intros p _. apply inverted_window_empty, Hinv.
Qed.

Lemma filter_keeps_window_in_order_witness :
  filtered_entries (mkdatetime 2024 5 1 0 0 0 0) (mkdatetime 2024 5 31 0 0 0 0)
    [ mkentry 3 12 "Mild depression" "2024-05-31 00:00:00";
      mkentry 2 40 "Moderate depression" "2024-05-31 00:00:01";
      mkentry 1 7 "Normal but unhappy" "2024-05-01 00:00:00" ]
  = Ok [ (12, mkdatetime 2024 5 31 0 0 0 0); (7, mkdatetime 2024 5 1 0 0 0 0) ]
  /\ update_graph "Anxiety (GAD-7)" "Custom"
       (mkdatetime 2024 6 1 12 0 0 0)
       (mkdatetime 2024 5 31 0 0 0 0) (mkdatetime 2024 5 1 0 0 0 0)
       (snd (save_gad7_score 9 (mkdatetime 2024 5 17 9 30 0 0) (init_db None)))
     = Ok [].
Proof.
  split.
  - rewrite (proj1 filter_keeps_window_in_order
               (mkdatetime 2024 5 1 0 0 0 0) (mkdatetime 2024 5 31 0 0 0 0) _
               [ mkdatetime 2024 5 31 0 0 0 0; mkdatetime 2024 5 31 0 0 1 0;
                 mkdatetime 2024 5 1 0 0 0 0 ]).
    + reflexivity.
    + repeat constructor.
  - apply (proj2 (proj2 (proj2 filter_keeps_window_in_order))).
    + apply reach_save_gad7_score; [apply reach_init | reflexivity].
    + reflexivity.
Defined.

(** ** The preset "All Time" *)

(** C7, as amended.  Under the preset "All Time" the window starts at the
    earliest representable time and ends at [now].  Filtering with it
    returns, in the order of the repository's listing (newest first), every
    persisted entry of the selected instrument whose timestamp is not later
    than [now]; it returns every persisted entry when none is stamped later
    than [now]. *)
Theorem all_time_keeps_entries_up_to_now :
  (forall now date_from date_to,
      window "All Time" now date_from date_to = Ok (datetime_min, now))
  /\ (forall graph_type now date_from date_to db,
        reachable db ->
        exists dates,
          Forall2 parses_to (selected_entries graph_type db) dates
          /\ update_graph graph_type "All Time" now date_from date_to db
             = Ok (map plot_point
                     (filter (fun p => dt_le (snd p) now)
                             (combine (selected_entries graph_type db) dates)))
          /\ (Forall (fun d => dt_le d now = true) dates ->
              update_graph graph_type "All Time" now date_from date_to db
              = Ok (map plot_point
                      (combine (selected_entries graph_type db) dates))))
  /\ (forall graph_type db,
        reachable db ->
        StronglySorted not_older (selected_entries graph_type db)
        /\ Permutation
             (selected_entries graph_type db)
             (if contains "Depression" graph_type
              then rows (checklist_entries db)
              else rows (gad7_entries db))).
Proof.
  split; [reflexivity|]. split.
  - intros graph_type now date_from date_to db Hr.
    destruct (selected_entries_parse graph_type db Hr) as (dates & Hp).
    exists dates. split; [exact Hp|].
    rewrite (update_graph_window _ _ _ _ _ datetime_min now) by reflexivity.
    rewrite (filtered_entries_spec _ _ _ _ Hp).
    assert (forall p, In p (combine (selected_entries graph_type db) dates) ->
                      in_window datetime_min now p = dt_le (snd p) now) as Hlow.
    { intros [e d] Hin. unfold in_window. cbn [snd].
      rewrite datetime_min_le; [reflexivity|].
      apply (parses_to_valid e).
      clear - Hp Hin. induction Hp as [|e' d' l l' Hed _ IH]; [contradiction|].
      destruct Hin as [Heq|Hin]; [injection Heq as <- <-; exact Hed|].
      apply IH, Hin. }
    split.
    + f_equal. f_equal. apply filter_ext_in. exact Hlow.
    + intros Hall. f_equal. f_equal. apply filter_all.
      intros [e d] Hin. rewrite (Hlow _ Hin). cbn [snd].
      apply in_combine_r in Hin.
      rewrite Forall_forall in Hall. apply Hall, Hin.
  - intros graph_type db Hr.
    destruct (reachable_timestamps db Hr) as [Hc Hg].
    unfold selected_entries, get_all_entries, get_all_gad7_entries.
    destruct (contains "Depression" graph_type); split;
      try (apply listing_newest_first; assumption);
      apply Permutation_sym, order_by_perm.
Qed.

Lemma all_time_keeps_entries_up_to_now_witness :
  exists dates,
    Forall2 parses_to
      (selected_entries "Depression (Burns)"
         (snd (save_score 30 (mkdatetime 2024 5 17 9 30 0 0) (init_db None))))
      dates
    /\ update_graph "Depression (Burns)" "All Time"
         (mkdatetime 2024 5 18 8 0 0 0)
         (mkdatetime 2024 5 11 8 0 0 0) (mkdatetime 2024 5 18 8 0 0 0)
         (snd (save_score 30 (mkdatetime 2024 5 17 9 30 0 0) (init_db None)))
       = Ok (map plot_point
               (filter (fun p => dt_le (snd p) (mkdatetime 2024 5 18 8 0 0 0))
                  (combine
                     (selected_entries "Depression (Burns)"
                        (snd (save_score 30 (mkdatetime 2024 5 17 9 30 0 0)
                                (init_db None))))
                     dates))).
Proof.
  destruct (proj1 (proj2 all_time_keeps_entries_up_to_now)
              "Depression (Burns)"
              (mkdatetime 2024 5 18 8 0 0 0)
              (mkdatetime 2024 5 11 8 0 0 0) (mkdatetime 2024 5 18 8 0 0 0)
              (snd (save_score 30 (mkdatetime 2024 5 17 9 30 0 0) (init_db None))))
    as (dates & Hp & Hg & _).
  - apply reach_save_score; [apply reach_init | reflexivity].
  - exists dates. split; [exact Hp | exact Hg].
Defined.

(** C7, as stated, fails: an entry stamped at 01:30 is in the listing, and
    "All Time" at a clock reading of 01:10 the same night (the clock having
    been set back an hour in between) plots nothing. *)
Lemma all_time_drops_entry_stamped_after_now :
  reachable
    (snd (save_score 30 (mkdatetime 2024 11 3 1 30 0 0) (init_db None)))
  /\ get_all_entries
       (snd (save_score 30 (mkdatetime 2024 11 3 1 30 0 0) (init_db None)))
     = [mkentry 1 30 "Moderate depression" "2024-11-03 01:30:00"]
  /\ update_graph "Depression (Burns)" "All Time"
       (mkdatetime 2024 11 3 1 10 0 0)
       (mkdatetime 2024 10 27 1 10 0 0) (mkdatetime 2024 11 3 1 10 0 0)
       (snd (save_score 30 (mkdatetime 2024 11 3 1 30 0 0) (init_db None)))
     = Ok [].
Proof.
  split; [|split].
  - apply reach_save_score; [apply reach_init | reflexivity].
  - reflexivity.
  - reflexivity.
Qed.

(* ================================================================== *)
(** * Further properties of the code *)
(* ================================================================== *)

(** ** Identifiers *)

Lemma max_rowid_le (rs : list entry) (s : Z) :
  0 <= s -> (forall e, In e rs -> entry_id e <= s) -> max_rowid rs <= s.
Proof.
  intros Hs. induction rs as [|x rs IH]; intros H; simpl; [exact Hs|].
  pose proof (H x (or_introl eq_refl)).
  assert (max_rowid rs <= s) by (apply IH; intros e He; apply H; now right).
  lia.
Qed.

Lemma ids_consecutive_next (t : table) :
  ids_consecutive t -> next_rowid t = Z.of_nat (List.length (rows t)) + 1.
Proof.
  intros [Hseq Hids]. unfold next_rowid. rewrite Hseq.
  assert (max_rowid (rows t) <= Z.of_nat (List.length (rows t))) as Hmax.
  { apply max_rowid_le; [lia|]. intros e He.
    apply (in_map entry_id) in He. rewrite Hids in He.
    apply in_map_iff in He as (k & <- & Hk). apply in_seq in Hk. lia. }
  lia.
Qed.

Lemma ids_consecutive_insert (t : table) (score : Z) (level ts : string) :
  ids_consecutive t -> ids_consecutive (snd (insert t score level ts)).
Proof.
  intros Ht. pose proof (ids_consecutive_next t Ht) as Hnext.
  destruct Ht as [Hseq Hids].
  unfold insert, ids_consecutive; cbn [snd rows sequence].
  rewrite length_app, Hnext. cbn [List.length]. split; [lia|].
  rewrite Nat.add_1_r, seq_S, !map_app, Hids. cbn [map entry_id].
  do 2 f_equal. lia.
Qed.

Lemma reachable_ids_consecutive (db : database) :
  reachable db ->
  ids_consecutive (checklist_entries db) /\ ids_consecutive (gad7_entries db).
Proof.
  induction 1 as [|score now db _ [IHc IHg] _|score now db _ [IHc IHg] _].
  - split; split; reflexivity.
  - split; [|exact IHg].
    apply (ids_consecutive_insert (checklist_entries db)), IHc.
  - split; [exact IHc|].
    apply (ids_consecutive_insert (gad7_entries db)), IHg.
Qed.

Lemma ids_consecutive_NoDup (t : table) :
  ids_consecutive t ->
  NoDup (map entry_id (order_by_timestamp_desc (rows t))).
Proof.
  intros [_ Hids].
  eapply Permutation_NoDup.
  - apply Permutation_map, order_by_perm.
  - rewrite Hids. apply Finite.Injective_map_NoDup; [|apply seq_NoDup].
    intros a b. apply Nat2Z.inj.
Qed.

(** X1. In every state the saves can bring about, the identifiers of a
    table are 1, 2, 3, ... in the order of the saves, none skipped and none
    repeated, and the identifier a save returns is the number of entries its
    table then holds. *)
Theorem identifiers_number_the_saves (db : database) :
  reachable db ->
  ids_consecutive (checklist_entries db)
  /\ ids_consecutive (gad7_entries db)
  /\ (forall score now,
        fst (save_score score now db)
        = Z.of_nat (List.length (get_all_entries db)) + 1
        /\ fst (save_score score now db)
           = Z.of_nat (List.length
                         (get_all_entries (snd (save_score score now db)))))
  /\ (forall score now,
        fst (save_gad7_score score now db)
        = Z.of_nat (List.length (get_all_gad7_entries db)) + 1
        /\ fst (save_gad7_score score now db)
           = Z.of_nat (List.length
                         (get_all_gad7_entries
                            (snd (save_gad7_score score now db)))))
  /\ NoDup (map entry_id (get_all_entries db))
  /\ NoDup (map entry_id (get_all_gad7_entries db)).
Proof.
  intros Hr. destruct (reachable_ids_consecutive db Hr) as [Hc Hg].
  split; [exact Hc|]. split; [exact Hg|].
  assert (forall rs, List.length (order_by_timestamp_desc rs) = List.length rs)
    as Hlen by (intros rs; symmetry; apply Permutation_length, order_by_perm).
  split; [|split; [|split]].
  - intros score now. unfold get_all_entries. rewrite !Hlen.
    rewrite (proj1 (save_score_rows score now db)), length_app.
    change (fst (save_score score now db))
      with (next_rowid (checklist_entries db)).
    rewrite (ids_consecutive_next _ Hc). cbn [List.length]. lia.
  - intros score now. unfold get_all_gad7_entries. rewrite !Hlen.
    rewrite (proj1 (save_gad7_score_rows score now db)), length_app.
    change (fst (save_gad7_score score now db))
      with (next_rowid (gad7_entries db)).
    rewrite (ids_consecutive_next _ Hg). cbn [List.length]. lia.
  - apply ids_consecutive_NoDup, Hc.
  - apply ids_consecutive_NoDup, Hg.
Qed.

Lemma identifiers_number_the_saves_witness :
  fst (save_score 12 (mkdatetime 2024 5 17 9 31 0 0)
         (snd (save_score 30 (mkdatetime 2024 5 17 9 30 0 0) (init_db None))))
  = Z.of_nat
      (List.length
         (get_all_entries
            (snd (save_score 30 (mkdatetime 2024 5 17 9 30 0 0)
                    (init_db None))))) + 1.
Proof.
  apply (proj1 (proj1 (proj2 (proj2
           (identifiers_number_the_saves
              (snd (save_score 30 (mkdatetime 2024 5 17 9 30 0 0) (init_db None)))
              (reach_save_score 30 (mkdatetime 2024 5 17 9 30 0 0) (init_db None)
                 reach_init eq_refl))))
           12 (mkdatetime 2024 5 17 9 31 0 0))).
Defined.

(** ** The questionnaire forms *)

Lemma bound_within (hi v : Z) : 0 <= hi -> 0 <= bound 0 hi v <= hi.
Proof. unfold bound. lia. Qed.

Lemma created_boxes_within (hi : Z) (questions : list string) :
  0 <= hi -> hi <= 99 ->
  boxes_within hi (map (fun _ => setRange 0 hi new_spinbox) questions).
Proof.
  intros H0 H99. unfold boxes_within. apply Forall_map, Forall_forall.
  intros _ _. unfold setRange, new_spinbox; cbn [minimum maximum value_of].
  unfold bound. repeat split; lia.
Qed.

Lemma answer_within (hi : Z) (i : nat) (v : Z) (boxes : list QSpinBox) :
  0 <= hi -> boxes_within hi boxes -> boxes_within hi (answer i v boxes).
Proof.
  intros Hhi. unfold boxes_within. revert i.
  induction boxes as [|sb rest IH]; intros i H; [destruct i; constructor|].
  inversion H as [|? ? Hsb Hrest]; subst.
  destruct Hsb as (Hmin & Hmax & Hval).
  destruct i as [|i]; cbn [answer].
  - constructor; [|exact Hrest].
    unfold setValue; cbn [minimum maximum value_of]. rewrite Hmin, Hmax.
    repeat split; try reflexivity; apply bound_within; exact Hhi.
  - constructor; [repeat split; lia|]. apply IH, Hrest.
Qed.

Lemma answer_length (i : nat) (v : Z) (boxes : list QSpinBox) :
  List.length (answer i v boxes) = List.length boxes.
Proof.
  revert i. induction boxes as [|sb rest IH]; intros [|i]; cbn [answer];
    try reflexivity.
  cbn [List.length]. now rewrite IH.
Qed.

Lemma fill_within (hi : Z) (answers : list (nat * Z)) (boxes : list QSpinBox) :
  0 <= hi -> boxes_within hi boxes ->
  boxes_within hi (fill boxes answers)
  /\ List.length (fill boxes answers) = List.length boxes.
Proof.
  intros Hhi. unfold fill. revert boxes.
  induction answers as [|[i v] answers IH]; intros boxes H; cbn [fold_left].
  - split; [exact H | reflexivity].
  - cbn [fst snd].
    destruct (IH (answer i v boxes) (answer_within hi i v boxes Hhi H))
      as [Hw Hl].
    split; [exact Hw|]. rewrite Hl. apply answer_length.
Qed.

Lemma values_within (hi : Z) (boxes : list QSpinBox) :
  boxes_within hi boxes -> Forall (fun z => 0 <= z <= hi) (values boxes).
Proof.
  unfold boxes_within, values. intros H. apply Forall_map.
  eapply Forall_impl; [|exact H]. cbv beta. intros sb (_ & _ & Hv). exact Hv.
Qed.

Lemma burns_form_values (answers : list (nat * Z)) :
  List.length (values (fill create_burns_questionnaire answers)) = 25%nat
  /\ Forall (fun z => 0 <= z <= 4)
            (values (fill create_burns_questionnaire answers)).
Proof.
  assert (boxes_within 4 create_burns_questionnaire) as Hc
      by (apply created_boxes_within; lia).
  destruct (fill_within 4 answers _ ltac:(lia) Hc) as [Hw Hl].
  split; [|apply values_within, Hw].
  unfold values. rewrite length_map, Hl. reflexivity.
Qed.

Lemma gad7_form_values (answers : list (nat * Z)) :
  List.length (values (fill create_gad7_questionnaire answers)) = 7%nat
  /\ Forall (fun z => 0 <= z <= 3)
            (values (fill create_gad7_questionnaire answers)).
Proof.
  assert (boxes_within 3 create_gad7_questionnaire) as Hc
      by (apply created_boxes_within; lia).
  destruct (fill_within 3 answers _ ltac:(lia) Hc) as [Hw Hl].
  split; [|apply values_within, Hw].
  unfold values. rewrite length_map, Hl. reflexivity.
Qed.

Lemma burns_score_of_valid (responses : list Z) :
  List.length responses = 25%nat ->
  Forall (fun z => 0 <= z <= 4) responses ->
  calculate_burns_score (map VInt responses) = Ok (total responses)
  /\ 0 <= total responses <= 100.
Proof.
  intros Hlen Hall. unfold calculate_burns_score.
  rewrite length_map, Hlen, items_accepted by assumption. simpl.
  rewrite sum_ints. split; [reflexivity|].
  pose proof (total_bounds 4 responses Hall) as Hb. rewrite Hlen in Hb. lia.
Qed.

Lemma gad7_score_of_valid (responses : list Z) :
  List.length responses = 7%nat ->
  Forall (fun z => 0 <= z <= 3) responses ->
  calculate_gad7_score (map VInt responses) = Ok (total responses)
  /\ 0 <= total responses <= 21.
Proof.
  intros Hlen Hall. unfold calculate_gad7_score.
  rewrite length_map, Hlen, items_accepted by assumption. simpl.
  rewrite sum_ints. split; [reflexivity|].
  pose proof (total_bounds 3 responses Hall) as Hb. rewrite Hlen in Hb. lia.
Qed.

Lemma depression_level_real (score : Z) :
  0 <= score <= 100 -> get_depression_level score <> "Invalid score".
Proof.
  intros Hr.
  destruct (depression_band_unique score Hr) as ([[lo hi] label] & [Hin Hb] & _).
  simpl in Hb. rewrite (depression_in_band score lo hi label Hin Hb).
  each_band Hin; discriminate.
Qed.

Lemma anxiety_level_real (score : Z) :
  0 <= score <= 21 -> get_anxiety_level score <> "Invalid score".
Proof.
  intros Hr.
  destruct (anxiety_band_unique score Hr) as ([[lo hi] label] & [Hin Hb] & _).
  simpl in Hb. rewrite (anxiety_in_band score lo hi label Hin Hb).
  each_band Hin; discriminate.
Qed.

(** X2. Whatever the user enters in the spin boxes of a form, submitting it
    never raises: the scorer's validation cannot fail on what the form
    supplies.  The handler saves exactly the sum of the answers, which lies
    in the instrument's range and has a real category, never
    "Invalid score", and the result label shows that same score and
    category. *)
Theorem form_submission_always_saves :
  (forall answers now db,
      calculate_burns_result
        (values (fill create_burns_questionnaire answers)) now db
      = (snd (save_score
                (total (values (fill create_burns_questionnaire answers)))
                now db),
         Ok ("Your total score is: "
             ++ str (total (values (fill create_burns_questionnaire answers)))
             ++ newline ++ "Depression Level: "
             ++ get_depression_level
                  (total (values (fill create_burns_questionnaire answers))))%string)
      /\ 0 <= total (values (fill create_burns_questionnaire answers)) <= 100
      /\ get_depression_level
           (total (values (fill create_burns_questionnaire answers)))
         <> "Invalid score")
  /\
  (forall answers now db,
      calculate_gad7_result
        (values (fill create_gad7_questionnaire answers)) now db
      = (snd (save_gad7_score
                (total (values (fill create_gad7_questionnaire answers)))
                now db),
         Ok ("Your total score is: "
             ++ str (total (values (fill create_gad7_questionnaire answers)))
             ++ newline ++ "Anxiety Level: "
             ++ get_anxiety_level
                  (total (values (fill create_gad7_questionnaire answers))))%string)
      /\ 0 <= total (values (fill create_gad7_questionnaire answers)) <= 21
      /\ get_anxiety_level
           (total (values (fill create_gad7_questionnaire answers)))
         <> "Invalid score").
Proof.
  split; intros answers now db.
  - destruct (burns_form_values answers) as [Hlen Hall].
    destruct (burns_score_of_valid _ Hlen Hall) as [Hok Hb].
    split; [|split; [exact Hb | apply depression_level_real, Hb]].
    unfold calculate_burns_result. rewrite Hok. reflexivity.
  - destruct (gad7_form_values answers) as [Hlen Hall].
    destruct (gad7_score_of_valid _ Hlen Hall) as [Hok Hb].
    split; [|split; [exact Hb | apply anxiety_level_real, Hb]].
    unfold calculate_gad7_result. rewrite Hok. reflexivity.
Qed.

(** ** Stores filled through the forms *)

Lemma burns_submission (answers : list (nat * Z)) (now : datetime) (db : database) :
  exists score,
    0 <= score <= 100
    /\ fst (calculate_burns_result
              (values (fill create_burns_questionnaire answers)) now db)
       = snd (save_score score now db).
Proof.
  destruct (burns_form_values answers) as [Hlen Hall].
  destruct (burns_score_of_valid _ Hlen Hall) as [Hok Hb].
  eexists. split; [exact Hb|].
  unfold calculate_burns_result. rewrite Hok. reflexivity.
Qed.

Lemma gad7_submission (answers : list (nat * Z)) (now : datetime) (db : database) :
  exists score,
    0 <= score <= 21
    /\ fst (calculate_gad7_result
              (values (fill create_gad7_questionnaire answers)) now db)
       = snd (save_gad7_score score now db).
Proof.
  destruct (gad7_form_values answers) as [Hlen Hall].
  destruct (gad7_score_of_valid _ Hlen Hall) as [Hok Hb].
  eexists. split; [exact Hb|].
  unfold calculate_gad7_result. rewrite Hok. reflexivity.
Qed.

Lemma gui_reachable_invariant (db : database) :
  gui_reachable db -> reachable db /\ scores_in_range db.
Proof.
  induction 1 as [|answers now db _ [IHr [IHc IHg]] Hv
                  |answers now db _ [IHr [IHc IHg]] Hv].
  - split; [apply reach_init|]. split; constructor.
  - destruct (burns_submission answers now db) as (score & Hs & ->).
    split; [apply reach_save_score; assumption|].
    destruct (save_score_rows score now db) as [Hrows Hother].
    split.
    + rewrite Hrows. apply Forall_snoc; [exact IHc|].
      cbn [entry_score entry_level].
      split; [exact Hs | apply depression_level_real, Hs].
    + rewrite Hother. exact IHg.
  - destruct (gad7_submission answers now db) as (score & Hs & ->).
    split; [apply reach_save_gad7_score; assumption|].
    destruct (save_gad7_score_rows score now db) as [Hrows Hother].
    split.
    + rewrite Hother. exact IHc.
    + rewrite Hrows. apply Forall_snoc; [exact IHg|].
      cbn [entry_score entry_level].
      split; [exact Hs | apply anxiety_level_real, Hs].
Qed.

(** Every point the filter hands out comes from an entry of its input that
    lies in the window. *)
Lemma filtered_entries_sound (start_date end_date : datetime)
  (entries : list entry) (pts : list (Z * datetime)) :
  filtered_entries start_date end_date entries = Ok pts ->
  Forall (fun p => exists e,
              In e entries /\ entry_score e = fst p /\ parses_to e (snd p)
              /\ dt_le start_date (snd p) = true
              /\ dt_le (snd p) end_date = true) pts.
Proof.
  revert pts. induction entries as [|e entries IH]; intros pts H.
  - injection H as <-. constructor.
  - assert (forall q, filtered_entries start_date end_date entries = Ok q ->
              Forall (fun p => exists e0,
                          In e0 (e :: entries) /\ entry_score e0 = fst p
                          /\ parses_to e0 (snd p)
                          /\ dt_le start_date (snd p) = true
                          /\ dt_le (snd p) end_date = true) q) as IH'.
    { intros q Hq. eapply Forall_impl; [|apply IH, Hq]. cbv beta.
      intros p (e0 & Hin & Hrest). exists e0. split; [now right | exact Hrest]. }
    cbn [filtered_entries] in H.
    destruct (strptime (entry_timestamp e)) as [d|] eqn:Hp; [|discriminate H].
    cbn [Py.bind] in H. unfold dt_ge in H.
    destruct (dt_le start_date d) eqn:H1; cbn [Py.bind] in H; [|apply IH', H].
    destruct (dt_le d end_date) eqn:H2; [|apply IH', H].
    destruct (filtered_entries start_date end_date entries) as [tail|];
      [|discriminate H].
    cbn [Py.bind] in H. injection H as <-.
    constructor; [|apply IH'; reflexivity].
    exists e. cbn [fst snd]. repeat split; try assumption. now left.
Qed.

Lemma update_graph_sound (graph_type filter_type : string)
  (now date_from date_to : datetime) (db : database)
  (pts : list (Z * datetime)) :
  update_graph graph_type filter_type now date_from date_to db = Ok pts ->
  exists start_date end_date,
    window filter_type now date_from date_to = Ok (start_date, end_date)
    /\ Forall (fun p => exists e,
                  In e (selected_entries graph_type db)
                  /\ entry_score e = fst p /\ parses_to e (snd p)
                  /\ dt_le start_date (snd p) = true
                  /\ dt_le (snd p) end_date = true) pts.
Proof.
  intros H. unfold update_graph in H.
  destruct (window filter_type now date_from date_to) as [[s e]|] eqn:Hw;
    [|discriminate H].
  cbn [Py.bind fst snd] in H.
  exists s, e. split; [reflexivity|].
  apply filtered_entries_sound, H.
Qed.

Lemma selected_entries_perm (graph_type : string) (db : database) :
  Permutation (selected_entries graph_type db)
    (if contains "Depression" graph_type
     then rows (checklist_entries db) else rows (gad7_entries db)).
Proof.
  unfold selected_entries, get_all_entries, get_all_gad7_entries.
  destruct (contains "Depression" graph_type);
    apply Permutation_sym, order_by_perm.
Qed.

(** X3. In a store filled through the forms, every stored score lies in its
    instrument's range and no stored category is "Invalid score"; so every
    point [update_graph] plots, for whatever instrument and time filter,
    lies within the range of the score axis set for that instrument. *)
Theorem plotted_scores_fit_the_axis (db : database) :
  gui_reachable db ->
  scores_in_range db
  /\ (forall graph_type filter_type now date_from date_to pts,
        update_graph graph_type filter_type now date_from date_to db = Ok pts ->
        Forall (fun p => fst (y_range graph_type) <= fst p
                         <= snd (y_range graph_type)) pts).
Proof.
  intros Hg. destruct (gui_reachable_invariant db Hg) as [_ Hs].
  split; [exact Hs|].
  intros graph_type filter_type now date_from date_to pts H.
  destruct (update_graph_sound _ _ _ _ _ _ _ H) as (s & e & _ & Hpts).
  eapply Forall_impl; [|exact Hpts]. cbv beta.
  intros p (en & Hin & Hscore & _). rewrite <- Hscore.
  eapply Permutation_in in Hin; [|apply selected_entries_perm].
  destruct Hs as [Hc Hgad]. unfold y_range.
  destruct (contains "Depression" graph_type); cbn [fst snd].
  - rewrite Forall_forall in Hc. apply (Hc en Hin).
  - rewrite Forall_forall in Hgad. apply (Hgad en Hin).
Qed.

Lemma plotted_scores_fit_the_axis_witness :
  scores_in_range
    (fst (calculate_gad7_result
            (values (fill create_gad7_questionnaire [(0%nat, 3); (6%nat, 9)]))
            (mkdatetime 2024 5 17 9 30 0 0) (init_db None))).
Proof.
  apply (proj1 (plotted_scores_fit_the_axis _
                  (gui_submit_gad7 [(0%nat, 3); (6%nat, 9)]
                     (mkdatetime 2024 5 17 9 30 0 0) (init_db None)
                     gui_init eq_refl))).
Defined.

(** ** What the plot shows *)








(** ** Narrowing the window *)







(** ** The two views *)

Lemma view_reachable_cases (v : view) :
  view_reachable v ->
  v = initial_view \/ v = mkview false false true "Switch to Questionnaire".
Proof.
  induction 1 as [|A plot v _ [->| ->]]; [now left | now right | now left].
Qed.

(** X6. Whatever the sequence of clicks on the toggle button, exactly one
    of the questionnaire and the graph is visible, the questionnaire
    selector is visible exactly with the questionnaire, and the button names
    the view that is hidden.  Clicking twice restores the view; the graph is
    redrawn exactly when a click switches to it, and a click switches the
    view even when that redraw raises. *)
Theorem toggle_view_alternates (v : view) :
  view_reachable v ->
  graph_widget_visible v = negb (questionnaire_stack_visible v)
  /\ questionnaire_select_visible v = questionnaire_stack_visible v
  /\ toggle_button_text v
     = (if questionnaire_stack_visible v
        then "Switch to Graph View" else "Switch to Questionnaire")
  /\ (forall A B (plot1 : result A) (plot2 : result B),
        fst (toggle_view plot2 (fst (toggle_view plot1 v))) = v)
  /\ (forall A (plot : result A),
        questionnaire_stack_visible (fst (toggle_view plot v))
        = negb (questionnaire_stack_visible v)
        /\ snd (toggle_view plot v)
           = (if questionnaire_stack_visible v then Some plot else None)).
Proof.
  intros Hv. destruct (view_reachable_cases v Hv) as [-> | ->];
    repeat split; reflexivity.
Qed.

Lemma toggle_view_alternates_witness :
  fst (toggle_view (Ok [(30, datetime_min)])
         (fst (toggle_view (@Raise (list (Z * datetime)) (OverflowError "date value out of range"))
                 initial_view)))
  = initial_view.
Proof.
  apply (proj1 (proj2 (proj2 (proj2
           (toggle_view_alternates initial_view view_init))))).
Defined.
